(** * DocxCheck: the authentication and analysis pipeline of server.js

    A shallow embedding of the Express routes of [server.js]: the OTP
    routes ([/api/auth/send-otp], [/api/auth/verify-otp]), the session
    check [authMiddleware], the three analysis routes and the history
    route, over an explicit store (the [User] and [History] collections).

    What the routes take from outside is passed in:
    - the clock ([Date.now()], in milliseconds) and [Math.random()];
    - the outcome of each store operation and of the model call;
    - the primitives of the runtime and of the [jsonwebtoken] package
      (number printing, string-to-number conversion, [jwt.sign],
      [jwt.verify]), as the variables of [Section Server]. *)

From Stdlib Require Import ZArith QArith Qround Lqa String Ascii List Lia Bool.
From Stdlib Require Import Sorted Permutation.
From stdpp Require Import base option gmap strings list pretty.
Import ListNotations.

#[local] Set Warnings "-register-all".

Local Open Scope string_scope.
Local Open Scope Z_scope.

(** ** Values produced by [JSON.parse] or read from a request body *)

(** A number is the rational a finite double denotes; [JUndefined] is
    what reading an absent property gives. *)
Inductive jsval : Type :=
  | JUndefined
  | JNull
  | JBool (b : bool)
  | JNum (q : Q)
  | JStr (s : string)
  | JArr (items : list jsval)
  | JObj (fields : list (string * jsval)).

(** The result of an expression that may throw. *)
Inductive completion (A : Type) : Type :=
  | Normal (a : A)
  | Throw.
Arguments Normal {A} a.
Arguments Throw {A}.

Definition bindc {A B : Type} (c : completion A) (k : A -> completion B)
  : completion B :=
  match c with
  | Normal a => k a
  | Throw => Throw
  end.

Notation "'got' x ':=' c 'in' k" := (bindc c (fun x => k))
  (at level 10, x name, c at level 100, k at level 200).

(** Own property of a parsed object; the last of several equal keys wins. *)
Fixpoint ownProperty (k : string) (fields : list (string * jsval)) : jsval :=
  match fields with
  | [] => JUndefined
  | (k', v) :: rest =>
      match ownProperty k rest with
      | JUndefined => if String.eqb k k' then v else JUndefined
      | found => found
      end
  end.

(** [o.k] for a key [k] that no built-in prototype defines
    ([similarity_score], [ref_lang], [tgt_lang], [sources], [score]):
    reading it off [null] or [undefined] throws a TypeError. *)
Definition getProp (o : jsval) (k : string) : completion jsval :=
  match o with
  | JUndefined | JNull => Throw
  | JObj fields => Normal (ownProperty k fields)
  | _ => Normal JUndefined
  end.

(** [o[0]] *)
Definition getIndex0 (o : jsval) : completion jsval :=
  match o with
  | JUndefined | JNull => Throw
  | JArr items => Normal (match items with [] => JUndefined | x :: _ => x end)
  | JStr s => Normal (match s with
                      | EmptyString => JUndefined
                      | String c _ => JStr (String c EmptyString)
                      end)
  | JObj fields => Normal (ownProperty "0" fields)
  | _ => Normal JUndefined
  end.

(** [o.length] *)
Definition getLength (o : jsval) : completion jsval :=
  match o with
  | JUndefined | JNull => Throw
  | JArr items => Normal (JNum (inject_Z (Z.of_nat (List.length items))))
  | JStr s => Normal (JNum (inject_Z (Z.of_nat (String.length s))))
  | JObj fields => Normal (ownProperty "length" fields)
  | _ => Normal JUndefined
  end.

(** [o?.k]: [undefined] instead of a TypeError on [null] and [undefined]. *)
Definition getPropOpt (o : jsval) (k : string) : jsval :=
  match o with
  | JObj fields => ownProperty k fields
  | _ => JUndefined
  end.

(** Truthiness of a string or absent value, as [!x] and [x || d] test it. *)
Definition truthyStr (s : option string) : bool :=
  match s with
  | Some (String _ _) => true
  | _ => false
  end.

(** [s || d] on an optional string. *)
Definition orElse (s : option string) (d : string) : string :=
  match s with
  | Some (String c r) => String c r
  | _ => d
  end.

(** [n >= k] on numbers; [None] is NaN, which compares false. *)
Definition numGe (n : option Q) (k : Q) : bool :=
  match n with
  | Some q => Qle_bool k q
  | None => false
  end.

(** [s.replace(p, r)] for a string pattern: only the first occurrence. *)
Fixpoint dropPrefix (p s : string) : option string :=
  match p with
  | EmptyString => Some s
  | String a p' =>
      match s with
      | EmptyString => None
      | String b s' => if Ascii.eqb a b then dropPrefix p' s' else None
      end
  end.

Fixpoint replaceFirst (p r s : string) : string :=
  match dropPrefix p s with
  | Some rest => r ++ rest
  | None =>
      match s with
      | EmptyString => EmptyString
      | String c s' => String c (replaceFirst p r s')
      end
  end.

(** ** Records of the two collections, tokens and responses *)

Definition ObjectId := N.

(** UserSchema; the [phone] of a document is its key in the store. *)
Record User := {
  user_id : ObjectId;
  user_otp : option string;        (* [None] is [null] *)
  user_otpExpires : option Z;      (* milliseconds; [None] is [null] *)
  user_createdAt : Z
}.

(** HistorySchema *)
Record History := {
  hist_userId : ObjectId;
  hist_type : string;
  hist_docs : string;
  hist_score : string;
  hist_details : string;
  hist_verdict : string;
  hist_createdAt : Z
}.

(** The store: the [User] collection as a map from [phone] (its unique
    index) to the document; [History] grows at its end; [nextId] is the
    next [_id] the store hands out. *)
Record Store := {
  users : gmap string User;
  histories : list History;
  nextId : ObjectId
}.

Definition emptyStore : Store :=
  {| users := ∅; histories := []; nextId := 0%N |}.

(** [process.env] *)
Record Env := { JWT_SECRET : option string }.

(** Payload given to [jwt.sign], and what [jwt.verify] decodes
    ([iat] and [exp] in seconds). *)
Record Claims := { claim_id : ObjectId; claim_phone : string }.

Record Decoded := {
  dec_id : ObjectId;
  dec_phone : string;
  dec_iat : Z;
  dec_exp : Z
}.

(** A file as multer's memory storage hands it over. *)
Record File := { buffer : string; mimetype : string; originalname : string }.

(** The three instruction templates, with the text they interpolate. *)
Inductive Prompt :=
  | SimilarityPrompt (refText tgtText : string)
  | WebScanPrompt
  | SummaryPrompt.

(** [inlineData] stands for the base64 text of the buffer. *)
Inductive Part :=
  | InlineData (data mimeType : string)
  | TextPart (p : Prompt).

(** What a route does to the outside. *)
Inductive effect :=
  | ModelCall (parts : list Part) (googleSearch : bool)
  | StoreCall (operation : string).

Inductive body :=
  | BError (error : string)
  | BMessage (message : string)
  | BLogin (message token : string)
  | BJson (v : jsval)
  | BHistory (entries : list History).

Record response := { status : Z; payload : body }.

Record Outcome := {
  resp : response;
  store : Store;
  effects : list effect
}.

(** [model.generateContent] followed by [JSON.parse(result.response.text())]:
    the call fails, the text is not JSON, or a value is parsed. *)
Inductive ModelReply :=
  | GenerateFails
  | NotJson (text : string)
  | Parsed (v : jsval).

(** What [authMiddleware] does with a request. *)
Inductive AuthResult :=
  | Reject (r : response)
  | Next (user : Decoded).

Definition sevenDays : Z := 7 * 24 * 60 * 60.

(** ** A sample runtime

    One concrete choice of the runtime primitives, used to run the
    routes on concrete requests. Its tokens are the binary digits of a
    numbering of (payload, secret, iat, exp). *)

Fixpoint bitsOf (p : positive) : string :=
  match p with
  | xH => EmptyString
  | xO p' => String "0" (bitsOf p')
  | xI p' => String "1" (bitsOf p')
  end.

Fixpoint ofBits (s : string) : option positive :=
  match s with
  | EmptyString => Some xH
  | String c s' =>
      match ofBits s' with
      | None => None
      | Some p =>
          if Ascii.eqb c "0" then Some (xO p)
          else if Ascii.eqb c "1" then Some (xI p)
          else None
      end
  end.

Definition sample_span (expiresIn : string) : Z :=
  if String.eqb expiresIn "7d" then sevenDays else 0.

Definition sample_sign (c : Claims) (secret expiresIn : string) (now : Z)
  : string :=
  String "J" (bitsOf (encode (claim_id c, claim_phone c, secret,
                              (now / 1000, now / 1000 + sample_span expiresIn)))).

Definition sample_verify (token : string) (secret : option string) (now : Z)
  : option Decoded :=
  match token with
  | String "J" bits =>
      match ofBits bits ≫= decode with
      | Some (i, ph, s, (iat, exp)) =>
          if truthyStr secret && bool_decide (secret = Some s)
             && (now / 1000 <? exp)
          then Some {| dec_id := i; dec_phone := ph;
                       dec_iat := iat; dec_exp := exp |}
          else None
      | None => None
      end
  | _ => None
  end.

Definition sample_NumberToString (q : Q) : string :=
  if (Zpos (Qden q) =? 1) then pretty (Qnum q)
  else pretty (Qnum q) ++ "/" ++ pretty (Zpos (Qden q)).

Definition sample_StringToNumber (s : string) : option Q := None.

Definition sample_ObjectToString (v : jsval) : completion string :=
  match v with
  | JArr [] => Normal ""
  | _ => Normal "[object Object]"
  end.

(** Multer's [req.files] for [upload.fields]: the first file of each
    field that was sent. *)
Record AnalyzeFiles := { refFile : option File; tgtFile : option File }.

(** The requests the server answers, each with what the outside
    contributes while it is handled. *)
Inductive Request :=
  | SendOtp (phone : option string) (rnd : Q) (upsertOk : bool)
  | VerifyOtp (phone : option string) (otp : jsval)
      (findOk saveOk : bool) (signAt : Z)
  | Analyze (authorization : option string) (files : option AnalyzeFiles)
      (refText tgtText : option string) (reply : ModelReply)
      (createOk : bool) (writeAt : Z)
  | WebScan (authorization : option string) (file : option File)
      (reply : ModelReply) (createOk : bool) (writeAt : Z)
  | Summarize (authorization : option string) (file : option File)
      (reply : ModelReply) (createOk : bool) (writeAt : Z)
  | GetHistory (authorization : option string) (findOk : bool).

Definition authorizationOf (r : Request) : option string :=
  match r with
  | SendOtp _ _ _ | VerifyOtp _ _ _ _ _ => None
  | Analyze a _ _ _ _ _ _ | WebScan a _ _ _ _ | Summarize a _ _ _ _
  | GetHistory a _ => a
  end.

(** The routes registered with [authMiddleware]. *)
Definition protectedRoute (r : Request) : bool :=
  match r with
  | SendOtp _ _ _ | VerifyOtp _ _ _ _ _ => false
  | _ => true
  end.

Definition errorJson (code : Z) (msg : string) : response :=
  {| status := code; payload := BError msg |}.

Definition okJson (b : body) : response := {| status := 200; payload := b |}.

(** [req.header('Authorization')?.replace('Bearer ', '')] *)
Definition bearerToken (authorization : option string) : option string :=
  option_map (replaceFirst "Bearer " "") authorization.

(** [user.otp !== otp] is the negation of this. *)
Definition strictEq (stored : option string) (sent : jsval) : bool :=
  match stored, sent with
  | None, JNull => true
  | Some s, JStr s' => String.eqb s s'
  | _, _ => false
  end.

(** [user.otpExpires < new Date()]: [null] counts as 0. *)
Definition dateLt (stored : option Z) (now : Z) : bool :=
  match stored with
  | Some e => e <? now
  | None => 0 <? now
  end.

(** [User.findOneAndUpdate({phone}, {otp, otpExpires}, {upsert: true})] *)
Definition upsertOtp (st : Store) (phone otp : string) (otpExpires now : Z)
  : Store :=
  match users st !! phone with
  | Some u =>
      {| users := <[phone := {| user_id := user_id u;
                                user_otp := Some otp;
                                user_otpExpires := Some otpExpires;
                                user_createdAt := user_createdAt u |}]> (users st);
         histories := histories st;
         nextId := nextId st |}
  | None =>
      {| users := <[phone := {| user_id := nextId st;
                                user_otp := Some otp;
                                user_otpExpires := Some otpExpires;
                                user_createdAt := now |}]> (users st);
         histories := histories st;
         nextId := N.succ (nextId st) |}
  end.

(** [user.otp = null; user.otpExpires = null; await user.save()] *)
Definition clearOtp (st : Store) (phone : string) (u : User) : Store :=
  {| users := <[phone := {| user_id := user_id u;
                            user_otp := None;
                            user_otpExpires := None;
                            user_createdAt := user_createdAt u |}]> (users st);
     histories := histories st;
     nextId := nextId st |}.

(** Mongoose's [required] on the string fields of HistorySchema. *)
Definition validHistory (h : History) : bool :=
  truthyStr (Some (hist_type h)) && truthyStr (Some (hist_docs h))
  && truthyStr (Some (hist_score h)).

Definition appendHistory (st : Store) (h : History) : Store :=
  {| users := users st; histories := (histories st ++ [h])%list; nextId := nextId st |}.

(** [.sort({ createdAt: -1 })] *)
Fixpoint insertDesc (h : History) (l : list History) : list History :=
  match l with
  | [] => [h]
  | x :: rest =>
      if hist_createdAt x <? hist_createdAt h then h :: l
      else x :: insertDesc h rest
  end.

Definition sortDesc (l : list History) : list History :=
  foldr insertDesc [] l.

(** [fileToGenerativePart] *)
Definition fileToGenerativePart (f : File) : Part :=
  InlineData (buffer f) (mimetype f).

Definition fileParts (f : option File) : list Part :=
  match f with
  | Some x => [fileToGenerativePart x]
  | None => []
  end.

Definition nameOr (f : option File) (d : string) : string :=
  match f with
  | Some x => originalname x
  | None => d
  end.

(** Whether [p] occurs in [s]. *)
Fixpoint contains (p s : string) : bool :=
  match dropPrefix p s with
  | Some _ => true
  | None =>
      match s with
      | EmptyString => false
      | String _ s' => contains p s'
      end
  end.

(** The order [.sort({ createdAt: -1 })] asks for: [x] may stand before
    [y] when [x] was created no earlier than [y]. *)
Definition newerFirst (x y : History) : Prop :=
  hist_createdAt y <= hist_createdAt x.

(** The model calls among the effects of a route. *)
Definition isModelCall (e : effect) : bool :=
  match e with
  | ModelCall _ _ => true
  | StoreCall _ => false
  end.

(** ** Sample requests *)

Definition sample_env : Env := {| JWT_SECRET := Some "s3cret" |}.

Definition sample_claims : Claims :=
  {| claim_id := 0%N; claim_phone := "+15551234" |}.

Definition sample_token : string :=
  sample_sign sample_claims "s3cret" "7d" 1700000060000.

Definition sample_user : Decoded :=
  {| dec_id := 0%N; dec_phone := "+15551234";
     dec_iat := 1700000060; dec_exp := 1700000060 + sevenDays |}.

Definition sample_analysis (score : Q) : jsval :=
  JObj [("similarity_score", JNum score);
        ("ref_lang", JStr "en"); ("tgt_lang", JStr "fr")].

Definition sample_scan (sources : list jsval) : jsval :=
  JObj [("sources", JArr sources)].

Definition sample_source (score : Q) : jsval :=
  JObj [("name", JStr "https://example.org/a"); ("score", JNum score)].

Definition no_files : AnalyzeFiles := {| refFile := None; tgtFile := None |}.

(** A challenge is requested at 1700000000000 ms, verified one second
    later with the code the draw 1/2 gives, and the token, signed 60 s
    after the request, is used for an analysis 120 s after it. *)
Definition sample_trace : list (Z * Request) :=
  [ (1700000000000, SendOtp (Some "+15551234") (1 # 2) true);
    (1700000001000,
     VerifyOtp (Some "+15551234") (JStr "550000") true true 1700000060000);
    (1700000120000,
     Analyze (Some ("Bearer " ++ sample_token)) (Some no_files) None None
             (Parsed (sample_analysis 80)) true 1700000125000) ].

Definition other_user : Decoded :=
  {| dec_id := 7%N; dec_phone := "+15559999";
     dec_iat := 1700000060; dec_exp := 1700000060 + sevenDays |}.

(** Three entries of two owners, stored oldest first. *)
Definition entry_a : History :=
  {| hist_userId := 0%N; hist_type := "AI Summary"; hist_docs := "a.pdf";
     hist_score := "-"; hist_details := "Summarized";
     hist_verdict := "Done"; hist_createdAt := 1700000200000 |}.

Definition entry_b : History :=
  {| hist_userId := 7%N; hist_type := "AI Summary"; hist_docs := "b.pdf";
     hist_score := "-"; hist_details := "Summarized";
     hist_verdict := "Done"; hist_createdAt := 1700000300000 |}.

Definition entry_c : History :=
  {| hist_userId := 0%N; hist_type := "AI Summary"; hist_docs := "c.pdf";
     hist_score := "-"; hist_details := "Summarized";
     hist_verdict := "Done"; hist_createdAt := 1700000400000 |}.

Definition sample_histories : list History := [entry_a; entry_b; entry_c].

Definition sample_store : Store :=
  {| users := ∅; histories := sample_histories; nextId := 8%N |}.

(** ** The routes *)

Section Server.

#[local] Set Default Proof Using "Type".

(** [Number.prototype.toString] *)
Variable NumberToString : Q -> string.
(** Conversion of a string to a number; [None] is NaN. *)
Variable StringToNumber : string -> option Q.
(** Conversion of a parsed array or object to a string
    ([Array.prototype.join], ["[object Object]"]); it throws when an
    own [toString] key hides the prototype's method. *)
Variable ObjectToString : jsval -> completion string.
(** [jwt.sign(payload, secret, { expiresIn })] at a clock reading. *)
Variable jwt_sign : Claims -> string -> string -> Z -> string.
(** [jwt.verify(token, secret)] at a clock reading; [None] when it throws. *)
Variable jwt_verify : string -> option string -> Z -> option Decoded.

(** [v.toString()] *)
Definition toStringMethod (v : jsval) : completion string :=
  match v with
  | JUndefined | JNull => Throw
  | JBool b => Normal (if b then "true" else "false")
  | JNum q => Normal (NumberToString q)
  | JStr s => Normal s
  | JArr _ | JObj _ => ObjectToString v
  end.

(** [`${v}`] *)
Definition templateString (v : jsval) : completion string :=
  match v with
  | JUndefined => Normal "undefined"
  | JNull => Normal "null"
  | _ => toStringMethod v
  end.

(** [v?.toString()] *)
Definition toStringOpt (v : jsval) : completion (option string) :=
  match v with
  | JUndefined | JNull => Normal None
  | _ => got s := toStringMethod v in Normal (Some s)
  end.

(** Conversion to a number; [None] is NaN. *)
Definition ToNumber (v : jsval) : completion (option Q) :=
  match v with
  | JUndefined => Normal None
  | JNull => Normal (Some 0%Q)
  | JBool b => Normal (Some (if b then 1%Q else 0%Q))
  | JNum q => Normal (Some q)
  | JStr s => Normal (StringToNumber s)
  | JArr _ | JObj _ => got s := ObjectToString v in Normal (StringToNumber s)
  end.

(** [v >= k] for a number [k] *)
Definition geNumber (v : jsval) (k : Q) : completion bool :=
  got n := ToNumber v in Normal (numGe n k).

(** *** Middleware *)

Definition authMiddleware (env : Env) (now : Z) (authorization : option string)
  : AuthResult :=
  let token := bearerToken authorization in
  if negb (truthyStr token) then
    Reject (errorJson 401 "Access denied. No token provided.")
  else
    match jwt_verify (default "" token) (JWT_SECRET env) now with
    | Some decoded => Next decoded
    | None => Reject (errorJson 400 "Invalid token.")
    end.

(** [app.post(path, authMiddleware, ..., handler)]: the handler runs
    only through [next()]. *)
Definition withAuth (env : Env) (now : Z) (authorization : option string)
    (st : Store) (handler : Decoded -> Outcome) : Outcome :=
  match authMiddleware env now authorization with
  | Reject r => {| resp := r; store := st; effects := [] |}
  | Next user => handler user
  end.

(** *** Authentication routes *)

(** [Math.floor(100000 + Math.random() * 900000).toString()] *)
Definition generateOtp (rnd : Q) : string :=
  NumberToString (inject_Z (Qfloor (100000 + rnd * 900000)%Q)).

(** POST /api/auth/send-otp *)
Definition send_otp (now : Z) (st : Store) (phone : option string)
    (rnd : Q) (upsertOk : bool) : Outcome :=
  if negb (truthyStr phone) then
    {| resp := errorJson 400 "Phone number is required";
       store := st; effects := [] |}
  else
    let otp := generateOtp rnd in
    let otpExpires := now + 10 * 60000 in
    if upsertOk then
      {| resp := okJson (BMessage
                   "OTP generated successfully (Check server terminal)");
         store := upsertOtp st (default "" phone) otp otpExpires now;
         effects := [StoreCall "User.findOneAndUpdate"] |}
    else
      {| resp := errorJson 500 "Failed to generate OTP.";
         store := st;
         effects := [StoreCall "User.findOneAndUpdate"] |}.

(** POST /api/auth/verify-otp; a request without [phone] finds no
    document. [now] is the clock at the expiry test, [signAt] the clock
    when the token is signed, after the save. *)
Definition verify_otp (env : Env) (now : Z) (st : Store)
    (phone : option string) (otp : jsval) (findOk saveOk : bool)
    (signAt : Z) : Outcome :=
  if negb findOk then
    {| resp := errorJson 500 "Verification failed";
       store := st; effects := [StoreCall "User.findOne"] |}
  else
    match phone ≫= (fun ph => users st !! ph) with
    | None =>
        {| resp := errorJson 404 "User not found";
           store := st; effects := [StoreCall "User.findOne"] |}
    | Some user =>
        if negb (strictEq (user_otp user) otp) then
          {| resp := errorJson 400 "Invalid OTP";
             store := st; effects := [StoreCall "User.findOne"] |}
        else if dateLt (user_otpExpires user) now then
          {| resp := errorJson 400 "OTP expired";
             store := st; effects := [StoreCall "User.findOne"] |}
        else if negb saveOk then
          {| resp := errorJson 500 "Verification failed";
             store := st;
             effects := [StoreCall "User.findOne"; StoreCall "user.save"] |}
        else
          let token :=
            jwt_sign {| claim_id := user_id user;
                        claim_phone := default "" phone |}
                     (orElse (JWT_SECRET env) "fallback_secret_key")
                     "7d" signAt in
          {| resp := okJson (BLogin "Login successful" token);
             store := clearOtp st (default "" phone) user;
             effects := [StoreCall "User.findOne"; StoreCall "user.save"] |}
    end.

(** *** Analysis routes *)

(** [History.create(doc)]: validation, then the insert. *)
Definition createHistory (st : Store) (h : History) (createOk : bool)
    (failure : string) (success : body) (before : list effect) : Outcome :=
  if validHistory h && createOk then
    {| resp := okJson success;
       store := appendHistory st h;
       effects := (before ++ [StoreCall "History.create"])%list |}
  else
    {| resp := errorJson 500 failure;
       store := st;
       effects := (before ++ [StoreCall "History.create"])%list |}.

Definition failed (st : Store) (failure : string) (done : list effect)
  : Outcome :=
  {| resp := errorJson 500 failure; store := st; effects := done |}.

(** The document [/api/analyze] hands to [History.create]. *)
Definition similarityDoc (user : Decoded) (fs : AnalyzeFiles)
    (analysis : jsval) (writeAt : Z) : completion History :=
  let docNames :=
    nameOr (refFile fs) "Text" ++ " -> " ++ nameOr (tgtFile fs) "Text" in
  got sim := getProp analysis "similarity_score" in
  got score := toStringMethod sim in
  got refLang := getProp analysis "ref_lang" in
  got refStr := templateString refLang in
  got tgtLang := getProp analysis "tgt_lang" in
  got tgtStr := templateString tgtLang in
  got high := geNumber sim 80 in
  got verdict :=
    (if high : bool then Normal "High"
     else got moderate := geNumber sim 50 in
          Normal (if moderate : bool then "Moderate" else "Low")) in
  Normal {| hist_userId := dec_id user;
            hist_type := "Similarity Check";
            hist_docs := docNames;
            hist_score := score;
            hist_details := refStr ++ " ↔ " ++ tgtStr;
            hist_verdict := verdict;
            hist_createdAt := writeAt |}.

(** POST /api/analyze, after [authMiddleware] and multer *)
Definition analyze (st : Store) (user : Decoded)
    (files : option AnalyzeFiles) (refText tgtText : option string)
    (reply : ModelReply) (createOk : bool) (writeAt : Z) : Outcome :=
  let failure := "Similarity analysis failed" in
  match files with
  | None => failed st failure []
  | Some fs =>
      let parts :=
        (fileParts (refFile fs) ++ fileParts (tgtFile fs)
         ++ [TextPart (SimilarityPrompt
                         (orElse refText "See attached reference file")
                         (orElse tgtText "See attached target file"))])%list in
      let called := [ModelCall parts false] in
      match reply with
      | GenerateFails | NotJson _ => failed st failure called
      | Parsed analysis =>
          match similarityDoc user fs analysis writeAt with
          | Throw => failed st failure called
          | Normal doc =>
              createHistory st doc createOk failure (BJson analysis) called
          end
      end
  end.

(** The document [/api/webscan] hands to [History.create]. *)
Definition webScanDoc (user : Decoded) (file : option File)
    (scanResult : jsval) (writeAt : Z) : completion History :=
  got sources := getProp scanResult "sources" in
  got first := getIndex0 sources in
  got scoreStr := toStringOpt (getPropOpt first "score") in
  got len := getLength sources in
  got lenStr := templateString len in
  got high := geNumber (getPropOpt first "score") 80 in
  Normal {| hist_userId := dec_id user;
            hist_type := "Web Scan";
            hist_docs := nameOr file "Document";
            hist_score := orElse scoreStr "0";
            hist_details := lenStr ++ " sources found";
            hist_verdict := if high : bool then "High Risk" else "Pass";
            hist_createdAt := writeAt |}.

(** POST /api/webscan, after [authMiddleware] and multer *)
Definition webscan (st : Store) (user : Decoded) (file : option File)
    (reply : ModelReply) (createOk : bool) (writeAt : Z) : Outcome :=
  let failure := "Web scan failed" in
  let called :=
    [ModelCall (fileParts file ++ [TextPart WebScanPrompt])%list true] in
  match reply with
  | GenerateFails | NotJson _ => failed st failure called
  | Parsed scanResult =>
      match webScanDoc user file scanResult writeAt with
      | Throw => failed st failure called
      | Normal doc =>
          createHistory st doc createOk failure (BJson scanResult) called
      end
  end.

(** The document [/api/summarize] hands to [History.create]. *)
Definition summaryDoc (user : Decoded) (file : option File) (writeAt : Z)
  : History :=
  {| hist_userId := dec_id user;
     hist_type := "AI Summary";
     hist_docs := nameOr file "Document";
     hist_score := "-";
     hist_details := "Summarized";
     hist_verdict := "Done";
     hist_createdAt := writeAt |}.

(** POST /api/summarize, after [authMiddleware] and multer *)
Definition summarize (st : Store) (user : Decoded) (file : option File)
    (reply : ModelReply) (createOk : bool) (writeAt : Z) : Outcome :=
  let failure := "Summarization failed" in
  let called :=
    [ModelCall (fileParts file ++ [TextPart SummaryPrompt])%list false] in
  match reply with
  | GenerateFails | NotJson _ => failed st failure called
  | Parsed summary =>
      createHistory st (summaryDoc user file writeAt) createOk failure
        (BJson summary) called
  end.

(** GET /api/history, after [authMiddleware] *)
Definition history (st : Store) (user : Decoded) (findOk : bool) : Outcome :=
  if findOk then
    {| resp := okJson (BHistory
                 (sortDesc (filter (fun h => hist_userId h = dec_id user)
                                   (histories st))));
       store := st; effects := [StoreCall "History.find"] |}
  else
    {| resp := errorJson 500 "Failed to fetch history";
       store := st; effects := [StoreCall "History.find"] |}.

(** *** The server *)

Definition handle (env : Env) (now : Z) (st : Store) (r : Request) : Outcome :=
  match r with
  | SendOtp phone rnd upsertOk => send_otp now st phone rnd upsertOk
  | VerifyOtp phone otp findOk saveOk signAt =>
      verify_otp env now st phone otp findOk saveOk signAt
  | Analyze a files refText tgtText reply createOk writeAt =>
      withAuth env now a st (fun user =>
        analyze st user files refText tgtText reply createOk writeAt)
  | WebScan a file reply createOk writeAt =>
      withAuth env now a st (fun user =>
        webscan st user file reply createOk writeAt)
  | Summarize a file reply createOk writeAt =>
      withAuth env now a st (fun user =>
        summarize st user file reply createOk writeAt)
  | GetHistory a findOk =>
      withAuth env now a st (fun user => history st user findOk)
  end.

(** The token a response hands to the client, if any. *)
Definition issuedBy (o : Outcome) : list string :=
  match payload (resp o) with
  | BLogin _ token => [token]
  | _ => []
  end.

(** A request presents a token that [jwt.verify] accepts only if the
    server handed that token out: nobody else holds the secret. *)
Definition unforged (env : Env) (now : Z) (issued : list string)
    (r : Request) : Prop :=
  forall token decoded,
    bearerToken (authorizationOf r) = Some token ->
    jwt_verify token (JWT_SECRET env) now = Some decoded ->
    In token issued.

(** States of the store the server reaches from the empty store, with
    the tokens handed out on the way. *)
Inductive reachable (env : Env) : Store -> list string -> Prop :=
  | reach_empty : reachable env emptyStore []
  | reach_handle st issued now r :
      reachable env st issued ->
      unforged env now issued r ->
      reachable env (store (handle env now st r))
                (issuedBy (handle env now st r) ++ issued)%list.

(** The server run over a list of timed requests. *)
Fixpoint run (env : Env) (st : Store) (issued : list string)
    (trace : list (Z * Request)) : Store * list string :=
  match trace with
  | [] => (st, issued)
  | (now, r) :: rest =>
      run env (store (handle env now st r))
          (issuedBy (handle env now st r) ++ issued)%list rest
  end.

Fixpoint unforgedTrace (env : Env) (st : Store) (issued : list string)
    (trace : list (Z * Request)) : Prop :=
  match trace with
  | [] => True
  | (now, r) :: rest =>
      unforged env now issued r /\
      unforgedTrace env (store (handle env now st r))
        (issuedBy (handle env now st r) ++ issued)%list rest
  end.

(** What is relied on of the [jsonwebtoken] package: a signed token
    is not the empty string; verified with the secret it was signed
    with, a token signed with [expiresIn: '7d'] decodes to its payload
    with [iat] the second of signing and [exp] 604800 seconds later, as
    long as the clock's second is below [exp]; verification without a
    secret throws. *)
Record JwtContract : Prop := {
  sign_nonempty : forall c s e t, jwt_sign c s e t <> "";
  verify_signed : forall c s t now,
    s <> "" ->
    jwt_verify (jwt_sign c s "7d" t) (Some s) now =
      if now / 1000 <? t / 1000 + sevenDays
      then Some {| dec_id := claim_id c; dec_phone := claim_phone c;
                   dec_iat := t / 1000;
                   dec_exp := t / 1000 + sevenDays |}
      else None;
  verify_no_secret : forall c s e t secret now,
    truthyStr secret = false ->
    jwt_verify (jwt_sign c s e t) secret now = None
}.

(** The model output was parsed and the document for [History.create]
    was built from it without a throw. *)
Definition validated (reply : ModelReply)
    (build : jsval -> completion History) : option History :=
  match reply with
  | Parsed v =>
      match build v with
      | Normal doc => Some doc
      | Throw => None
      end
  | GenerateFails | NotJson _ => None
  end.

(** Write-after-validate for one run [o] of an analysis route from the
    store [st]: [doc] is the validated document, if any. Without one
    the route answers its generic failure, leaves the store as it was
    and does not call [History.create]; the store changes only by
    appending the validated document, with a 200; every other answer
    is the generic failure with the store as it was. *)
Definition writeAfterValidate (st : Store) (o : Outcome)
    (doc : option History) (failure : string) : Prop :=
  (doc = None ->
     resp o = errorJson 500 failure /\ store o = st /\
     ~ In (StoreCall "History.create") (effects o)) /\
  (store o <> st ->
     exists h, doc = Some h /\ store o = appendHistory st h /\
               status (resp o) = 200) /\
  (status (resp o) <> 200 ->
     resp o = errorJson 500 failure /\ store o = st).

(** Some document of the [User] collection has this [_id]. *)
Definition identityExists (st : Store) (id : ObjectId) : Prop :=
  exists phone u, users st !! phone = Some u /\ user_id u = id.

(** Every history entry is owned by an existing identity. *)
Definition ownersExist (st : Store) : Prop :=
  forall h, In h (histories st) -> identityExists st (hist_userId h).

(** Every token handed out was signed by a login, for an identity
    that exists. *)
Definition tokensKnown (env : Env) (st : Store) (issued : list string)
  : Prop :=
  forall token, In token issued ->
    exists c t,
      token = jwt_sign c (orElse (JWT_SECRET env) "fallback_secret_key")
                       "7d" t /\
      identityExists st (claim_id c).

(** What a handler behind [authMiddleware] may do to the store: keep
    the users, hand out no token, and append at most one entry, owned
    by the authenticated identity. *)
Definition ownedWrite (st : Store) (user : Decoded) (o : Outcome) : Prop :=
  users (store o) = users st /\
  issuedBy o = [] /\
  (histories (store o) = histories st \/
   exists h, histories (store o) = (histories st ++ [h])%list /\
             hist_userId h = dec_id user).

(** The stored code and expiry of every document are both set or both
    [null]. *)
Definition challengePaired (st : Store) : Prop :=
  forall phone u, users st !! phone = Some u ->
    (user_otp u = None <-> user_otpExpires u = None).

(** ** Properties *)

(** *** Strings and the bearer header *)

Lemma dropPrefix_app p s : dropPrefix p (p ++ s) = Some s.
Proof.
  induction p as [|a p IH]; [reflexivity|].
  change (String a p ++ s) with (String a (p ++ s)). cbn.
  now rewrite Ascii.eqb_refl.
Qed.

Lemma replaceFirst_unfold p r s :
  replaceFirst p r s =
  match dropPrefix p s with
  | Some rest => r ++ rest
  | None => match s with
            | EmptyString => EmptyString
            | String c s' => String c (replaceFirst p r s')
            end
  end.
Proof. destruct s; reflexivity. Qed.

Lemma replaceFirst_app p r s : replaceFirst p r (p ++ s) = r ++ s.
Proof. rewrite replaceFirst_unfold. now rewrite dropPrefix_app. Qed.

Lemma bearerToken_bearer token :
  bearerToken (Some ("Bearer " ++ token)) = Some token.
Proof.
  unfold bearerToken, option_map.
  now rewrite (replaceFirst_app "Bearer " "" token).
Qed.

Lemma truthyStr_Some s : truthyStr (Some s) = true <-> s <> "".
Proof. destruct s; cbn; split; congruence. Qed.

Lemma orElse_truthy s d : s <> "" -> orElse (Some s) d = s.
Proof. destruct s; cbn; congruence. Qed.

Lemma orElse_falsy s d : truthyStr s = false -> orElse s d = d.
Proof. destruct s as [[|] |]; cbn; congruence. Qed.

(** *** The one-time password *)

Lemma upsertOtp_lookup st phone otp e now :
  exists u, users (upsertOtp st phone otp e now) !! phone = Some u
            /\ user_otp u = Some otp /\ user_otpExpires u = Some e.
Proof.
  unfold upsertOtp. destruct (users st !! phone) as [u|]; cbn;
    rewrite lookup_insert_eq; eauto.
Qed.

(** The branches of [verify_otp] once the document is found. *)
Lemma verify_otp_found env now st phone u otp saveOk signAt :
  users st !! phone = Some u ->
  verify_otp env now st (Some phone) otp true saveOk signAt =
    if negb (strictEq (user_otp u) otp) then
      {| resp := errorJson 400 "Invalid OTP";
         store := st; effects := [StoreCall "User.findOne"] |}
    else if dateLt (user_otpExpires u) now then
      {| resp := errorJson 400 "OTP expired";
         store := st; effects := [StoreCall "User.findOne"] |}
    else if negb saveOk then
      {| resp := errorJson 500 "Verification failed";
         store := st;
         effects := [StoreCall "User.findOne"; StoreCall "user.save"] |}
    else
      {| resp := okJson (BLogin "Login successful"
                   (jwt_sign {| claim_id := user_id u; claim_phone := phone |}
                      (orElse (JWT_SECRET env) "fallback_secret_key")
                      "7d" signAt));
         store := clearOtp st phone u;
         effects := [StoreCall "User.findOne"; StoreCall "user.save"] |}.
Proof. intros Hu. unfold verify_otp. cbn. now rewrite Hu. Qed.

(** A login response comes from the last branch only. *)
Lemma verify_otp_success env now st phone otp findOk saveOk signAt :
  status (resp (verify_otp env now st phone otp findOk saveOk signAt)) = 200 ->
  exists ph u,
    phone = Some ph /\ users st !! ph = Some u /\
    findOk = true /\ saveOk = true /\
    strictEq (user_otp u) otp = true /\
    dateLt (user_otpExpires u) now = false /\
    verify_otp env now st phone otp findOk saveOk signAt =
      {| resp := okJson (BLogin "Login successful"
                   (jwt_sign {| claim_id := user_id u; claim_phone := ph |}
                      (orElse (JWT_SECRET env) "fallback_secret_key")
                      "7d" signAt));
         store := clearOtp st ph u;
         effects := [StoreCall "User.findOne"; StoreCall "user.save"] |}.
Proof.
  unfold verify_otp.
  destruct findOk; cbn; [|discriminate].
  destruct phone as [ph|]; cbn; [|discriminate].
  destruct (users st !! ph) as [u|] eqn:Hu; cbn; [|discriminate].
  destruct (strictEq (user_otp u) otp) eqn:Heq; cbn; [|discriminate].
  destruct (dateLt (user_otpExpires u) now) eqn:Hlt; cbn; [discriminate|].
  destruct saveOk; cbn; [|discriminate].
  intros _. exists ph, u. repeat split; reflexivity || assumption.
Qed.

Lemma issuedBy_error o code msg :
  resp o = errorJson code msg -> issuedBy o = [].
Proof. unfold issuedBy. now intros ->. Qed.

(** A response without a login carries no token. *)
Lemma verify_otp_no_token env now st phone otp findOk saveOk signAt :
  status (resp (verify_otp env now st phone otp findOk saveOk signAt)) <> 200 ->
  issuedBy (verify_otp env now st phone otp findOk saveOk signAt) = [].
Proof.
  unfold verify_otp, issuedBy.
  destruct findOk; cbn; [|reflexivity].
  destruct (phone ≫= _) as [u|]; cbn; [|reflexivity].
  destruct (strictEq _ _); cbn; [|reflexivity].
  destruct (dateLt _ _); cbn; [reflexivity|].
  destruct saveOk; cbn; [|reflexivity].
  intros H. now contradiction H.
Qed.


Lemma send_otp_issued t0 st phone rnd :
  phone <> "" ->
  send_otp t0 st (Some phone) rnd true =
    {| resp := okJson (BMessage
                 "OTP generated successfully (Check server terminal)");
       store := upsertOtp st phone (generateOtp rnd) (t0 + 10 * 60000) t0;
       effects := [StoreCall "User.findOneAndUpdate"] |}.
Proof.
  intros Hne. unfold send_otp.
  now rewrite (proj2 (truthyStr_Some phone) Hne).
Qed.

Lemma strictEq_same code : strictEq (Some code) (JStr code) = true.
Proof. cbn. apply String.eqb_refl. Qed.

Lemma strictEq_null otp : strictEq None otp = true <-> otp = JNull.
Proof. destruct otp; cbn; split; congruence. Qed.

Lemma clearOtp_lookup st phone u :
  exists u', users (clearOtp st phone u) !! phone = Some u'
             /\ user_otp u' = None /\ user_otpExpires u' = None.
Proof. unfold clearOtp; cbn. rewrite lookup_insert_eq. eauto. Qed.

(** C1. A code issued by [/api/auth/send-otp] and verified within its
    window logs in once: the login clears both stored challenge
    fields, and every later verification with the same code issues no
    token and, when the store answers, is refused with 400
    "Invalid OTP". *)
Theorem challenge_consumed_once
    (env : Env) (st : Store) (phone : string) (rnd : Q) (t0 t1 signAt : Z) :
  phone <> "" ->
  t1 <= t0 + 600000 ->
  let code := generateOtp rnd in
  let requested := send_otp t0 st (Some phone) rnd true in
  let first :=
    verify_otp env t1 (store requested) (Some phone) (JStr code)
               true true signAt in
  status (resp requested) = 200 /\
  (exists token, resp first = okJson (BLogin "Login successful" token)) /\
  (exists u, users (store first) !! phone = Some u
             /\ user_otp u = None /\ user_otpExpires u = None) /\
  forall t2 findOk saveOk signAt2,
    let second :=
      verify_otp env t2 (store first) (Some phone) (JStr code)
                 findOk saveOk signAt2 in
    issuedBy second = [] /\
    store second = store first /\
    (findOk = true -> resp second = errorJson 400 "Invalid OTP").
Proof.
  intros Hne Hwin code requested first.
  subst requested. unfold first. clear first.
  rewrite (send_otp_issued t0 st phone rnd Hne). cbn [store resp].
  destruct (upsertOtp_lookup st phone code (t0 + 10 * 60000) t0)
    as (u & Hu & Hotp & Hexp).
  rewrite (verify_otp_found _ _ _ _ _ _ _ _ Hu).
  rewrite Hotp, Hexp, strictEq_same.
  assert (Hnot : dateLt (Some (t0 + 10 * 60000)) t1 = false)
    by (cbn; apply Z.ltb_ge; lia).
  rewrite Hnot. cbn [negb store resp].
  split; [reflexivity|].
  split; [eauto|].
  destruct (clearOtp_lookup (upsertOtp st phone code (t0 + 10 * 60000) t0)
                            phone u) as (u' & Hu' & Hotp' & Hexp').
  split; [eauto|].
  intros t2 findOk saveOk signAt2.
  destruct findOk.
  - rewrite (verify_otp_found _ _ _ _ _ _ _ _ Hu'), Hotp'.
    cbn. repeat split; reflexivity.
  - unfold verify_otp; cbn. repeat split; try reflexivity. discriminate.
Qed.

(** C2, as the code has it. With the matching code, verification
    answers 400 "OTP expired" exactly when the clock is strictly past
    the stored expiry; at the expiry instant itself it still logs in. *)
Theorem expired_iff_strictly_past
    (env : Env) (st : Store) (phone code : string) (u : User)
    (e now signAt : Z) (saveOk : bool) :
  users st !! phone = Some u ->
  user_otp u = Some code ->
  user_otpExpires u = Some e ->
  let o := verify_otp env now st (Some phone) (JStr code) true saveOk signAt in
  (resp o = errorJson 400 "OTP expired" <-> e < now) /\
  (now <= e -> saveOk = true -> status (resp o) = 200).
Proof.
  intros Hu Hotp Hexp o. subst o.
  rewrite (verify_otp_found _ _ _ _ _ _ _ _ Hu), Hotp, Hexp, strictEq_same.
  cbn [negb dateLt].
  destruct (e <? now) eqn:Hlt.
  - apply Z.ltb_lt in Hlt. split; [split; auto | lia].
  - apply Z.ltb_ge in Hlt. split.
    + split; [|lia].
      destruct saveOk; cbn; intros H; discriminate H.
    + intros _ ->. reflexivity.
Qed.

(** C9. Once a verification has logged in, the stored code and expiry
    are [null]; while they stay so, no request for that phone gets a
    token at a clock reading after the epoch: a [null] code passes the
    comparison of codes and is refused with "OTP expired", since the
    [null] expiry counts as 0; any other code is refused with
    "Invalid OTP". *)
Theorem consumed_challenge_never_reissues
    (env : Env) (st : Store) (phone : option string) (otp1 : jsval)
    (t1 signAt1 : Z) (findOk1 saveOk1 : bool) :
  let first := verify_otp env t1 st phone otp1 findOk1 saveOk1 signAt1 in
  status (resp first) = 200 ->
  forall (now : Z) (otp : jsval) (findOk saveOk : bool) (signAt : Z),
    0 < now ->
    let again := verify_otp env now (store first) phone otp findOk saveOk signAt in
    issuedBy again = [] /\
    status (resp again) <> 200 /\
    (findOk = true -> otp = JNull ->
       strictEq None otp = true /\ dateLt None now = true /\
       resp again = errorJson 400 "OTP expired") /\
    (findOk = true -> otp <> JNull ->
       resp again = errorJson 400 "Invalid OTP").
Proof.
  intros first Hok now otp findOk saveOk signAt Hnow again.
  subst again.
  destruct (verify_otp_success _ _ _ _ _ _ _ _ Hok)
    as (ph & u & -> & Hu & _ & _ & _ & _ & Hfirst).
  subst first. rewrite Hfirst. cbn [store].
  destruct (clearOtp_lookup st ph u) as (u' & Hu' & Hotp' & Hexp').
  assert (Hlt : dateLt None now = true) by (cbn; apply Z.ltb_lt; lia).
  destruct findOk.
  - rewrite (verify_otp_found _ _ _ _ _ _ _ _ Hu'), Hotp', Hexp'.
    destruct (strictEq None otp) eqn:Heq.
    + apply strictEq_null in Heq. subst otp.
      rewrite Hlt. cbn [negb resp issuedBy errorJson payload status].
      split; [reflexivity|]. split; [discriminate|].
      split; [intros _ _; auto | intros _ Hn; now contradiction Hn].
    + cbn [negb resp issuedBy errorJson payload status].
      split; [reflexivity|]. split; [discriminate|].
      split; [intros _ ->; discriminate Heq | reflexivity].
  - unfold verify_otp; cbn.
    split; [reflexivity|]. split; [discriminate|].
    split; intros H; discriminate H.
Qed.


(** *** Session tokens *)

Lemma authMiddleware_token env now authorization token :
  bearerToken authorization = Some token ->
  token <> "" ->
  authMiddleware env now authorization =
    match jwt_verify token (JWT_SECRET env) now with
    | Some decoded => Next decoded
    | None => Reject (errorJson 400 "Invalid token.")
    end.
Proof.
  intros Htok Hne. unfold authMiddleware. rewrite Htok.
  now rewrite (proj2 (truthyStr_Some token) Hne).
Qed.

Lemma authMiddleware_no_token env now authorization :
  truthyStr (bearerToken authorization) = false ->
  authMiddleware env now authorization =
    Reject (errorJson 401 "Access denied. No token provided.").
Proof. intros H. unfold authMiddleware. now rewrite H. Qed.

(** What [next()] implies of the request. *)
Lemma authMiddleware_next env now authorization decoded :
  authMiddleware env now authorization = Next decoded ->
  exists token,
    bearerToken authorization = Some token /\ token <> "" /\
    jwt_verify token (JWT_SECRET env) now = Some decoded.
Proof.
  unfold authMiddleware.
  destruct (bearerToken authorization) as [token|] eqn:Htok; cbn;
    [|discriminate].
  destruct token as [|c rest]; cbn; [discriminate|].
  destruct (jwt_verify _ _ _) as [d|] eqn:Hv; [|discriminate].
  intros [= <-]. exists (String c rest). repeat split; [discriminate | exact Hv].
Qed.

Lemma seconds_before (now e : Z) : now / 1000 < e <-> now < e * 1000.
Proof.
  split; intros H.
  - apply Z.nle_gt. intros Hle. apply Z.nle_gt in H. apply H.
    apply Z.div_le_lower_bound; lia.
  - apply Z.div_lt_upper_bound; lia.
Qed.

(** The round trip of a token signed with a configured secret. *)
Lemma signed_token_accepted env now c s signAt :
  JwtContract ->
  JWT_SECRET env = Some s -> s <> "" ->
  authMiddleware env now (Some ("Bearer " ++ jwt_sign c s "7d" signAt)) =
    if now / 1000 <? signAt / 1000 + sevenDays
    then Next {| dec_id := claim_id c; dec_phone := claim_phone c;
                 dec_iat := signAt / 1000;
                 dec_exp := signAt / 1000 + sevenDays |}
    else Reject (errorJson 400 "Invalid token.").
Proof.
  intros K Hs Hne.
  rewrite (authMiddleware_token env now _ _ (bearerToken_bearer _)
             (sign_nonempty K _ _ _ _)).
  rewrite Hs, (verify_signed K c s signAt now Hne).
  now destruct (_ <? _).
Qed.

(** C4. With the signing secret configured, the token of a login
    carries the [_id] and the phone of the identity, [iat] the second
    of signing and [exp] exactly 604800 seconds (7 days) later; it is
    signed with the configured secret, the one [authMiddleware]
    verifies with; [authMiddleware] accepts it at every clock reading
    strictly before [exp] and rejects it with 400 from [exp] on. *)
Theorem session_token_lifetime
    (env : Env) (st : Store) (phone : option string) (otp : jsval)
    (t1 signAt : Z) (findOk saveOk : bool) (s : string) :
  JwtContract ->
  JWT_SECRET env = Some s -> s <> "" ->
  let login := verify_otp env t1 st phone otp findOk saveOk signAt in
  status (resp login) = 200 ->
  exists ph u token,
    phone = Some ph /\ users st !! ph = Some u /\
    resp login = okJson (BLogin "Login successful" token) /\
    token = jwt_sign {| claim_id := user_id u; claim_phone := ph |}
                     s "7d" signAt /\
    let decoded := {| dec_id := user_id u; dec_phone := ph;
                      dec_iat := signAt / 1000;
                      dec_exp := signAt / 1000 + 604800 |} in
    dec_exp decoded - dec_iat decoded = 7 * 24 * 3600 /\
    forall now,
      (now < dec_exp decoded * 1000 ->
         authMiddleware env now (Some ("Bearer " ++ token)) = Next decoded) /\
      (dec_exp decoded * 1000 <= now ->
         authMiddleware env now (Some ("Bearer " ++ token)) =
           Reject (errorJson 400 "Invalid token.")).
Proof.
  intros K Hs Hne login Hok.
  destruct (verify_otp_success _ _ _ _ _ _ _ _ Hok)
    as (ph & u & -> & Hu & _ & _ & _ & _ & Hlogin).
  subst login. rewrite Hlogin. cbn [resp].
  rewrite Hs, (orElse_truthy s _ Hne).
  exists ph, u, (jwt_sign {| claim_id := user_id u; claim_phone := ph |}
                          s "7d" signAt).
  repeat (split; [reflexivity || assumption|]).
  cbn zeta. cbn [dec_exp dec_iat]. split; [lia|].
  intros now.
  rewrite (signed_token_accepted env now _ s signAt K Hs Hne).
  change sevenDays with 604800. cbn [claim_id claim_phone].
  split; intros H.
  - apply seconds_before in H. apply Z.ltb_lt in H. now rewrite H.
  - assert (Hge : (now / 1000 <? signAt / 1000 + 604800) = false).
    { apply Z.ltb_ge. apply Z.div_le_lower_bound; lia. }
    now rewrite Hge.
Qed.

(** C10. A login signs its token with [JWT_SECRET], or with
    "fallback_secret_key" when that is unset, and [authMiddleware]
    verifies with [JWT_SECRET] alone. So with a secret configured the
    token of a login is accepted before its expiry, and with
    [JWT_SECRET] unset the token is signed with the fallback and every
    request that presents it is rejected with 400. *)
Theorem signing_verification_asymmetry
    (env : Env) (st : Store) (phone : option string) (otp : jsval)
    (t1 signAt : Z) (findOk saveOk : bool) :
  JwtContract ->
  let login := verify_otp env t1 st phone otp findOk saveOk signAt in
  status (resp login) = 200 ->
  exists ph u token,
    phone = Some ph /\ users st !! ph = Some u /\
    resp login = okJson (BLogin "Login successful" token) /\
    token = jwt_sign {| claim_id := user_id u; claim_phone := ph |}
                     (orElse (JWT_SECRET env) "fallback_secret_key")
                     "7d" signAt /\
    (forall s now,
       JWT_SECRET env = Some s -> s <> "" ->
       now / 1000 < signAt / 1000 + sevenDays ->
       orElse (JWT_SECRET env) "fallback_secret_key" = s /\
       authMiddleware env now (Some ("Bearer " ++ token)) =
         Next {| dec_id := user_id u; dec_phone := ph;
                 dec_iat := signAt / 1000;
                 dec_exp := signAt / 1000 + sevenDays |}) /\
    (JWT_SECRET env = None ->
       orElse (JWT_SECRET env) "fallback_secret_key" = "fallback_secret_key" /\
       forall now authorization,
         bearerToken authorization = Some token ->
         authMiddleware env now authorization =
           Reject (errorJson 400 "Invalid token.")).
Proof.
  intros K login Hok.
  destruct (verify_otp_success _ _ _ _ _ _ _ _ Hok)
    as (ph & u & -> & Hu & _ & _ & _ & _ & Hlogin).
  subst login. rewrite Hlogin. cbn [resp].
  exists ph, u, (jwt_sign {| claim_id := user_id u; claim_phone := ph |}
                          (orElse (JWT_SECRET env) "fallback_secret_key")
                          "7d" signAt).
  repeat (split; [reflexivity || assumption|]).
  split.
  - intros s now Hs Hne Hlt.
    rewrite Hs, (orElse_truthy s _ Hne). split; [reflexivity|].
    rewrite (signed_token_accepted env now _ s signAt K Hs Hne).
    apply Z.ltb_lt in Hlt. now rewrite Hlt.
  - intros Hnone. rewrite Hnone. split; [reflexivity|].
    intros now authorization Htok.
    rewrite (authMiddleware_token env now _ _ Htok
               (sign_nonempty K _ _ _ _)).
    rewrite Hnone. now rewrite (verify_no_secret K).
Qed.

(** C5. On the four routes behind [authMiddleware], a request without
    a bearer token is answered 401 and a request whose token
    [jwt.verify] refuses (malformed, wrongly signed or expired) is
    answered 400; in both cases the handler is not run: the store is
    untouched and neither the model nor the store is called. *)
Theorem auth_precedes_work (env : Env) (now : Z) (st : Store) (r : Request) :
  protectedRoute r = true ->
  (truthyStr (bearerToken (authorizationOf r)) = false ->
     handle env now st r =
       {| resp := errorJson 401 "Access denied. No token provided.";
          store := st; effects := [] |}) /\
  (forall token,
     bearerToken (authorizationOf r) = Some token -> token <> "" ->
     jwt_verify token (JWT_SECRET env) now = None ->
     handle env now st r =
       {| resp := errorJson 400 "Invalid token.";
          store := st; effects := [] |}).
Proof.
  intros Hprot. split.
  - intros Hno.
    destruct r; try discriminate Hprot; cbn in Hno |- *; unfold withAuth;
      now rewrite (authMiddleware_no_token env now _ Hno).
  - intros token Htok Hne Hbad.
    destruct r; try discriminate Hprot; cbn in Htok |- *; unfold withAuth;
      now rewrite (authMiddleware_token env now _ _ Htok Hne), Hbad.
Qed.


(** *** Analysis routes *)

Lemma wav_failed st failure called doc :
  doc = None ->
  ~ In (StoreCall "History.create") called ->
  writeAfterValidate st (failed st failure called) doc failure.
Proof.
  intros -> Hnot. unfold writeAfterValidate, failed; cbn.
  split; [auto|]. split; [intros H; now contradiction H | auto].
Qed.

Lemma wav_create st h createOk failure success before :
  writeAfterValidate st (createHistory st h createOk failure success before)
                     (Some h) failure.
Proof.
  unfold writeAfterValidate, createHistory.
  destruct (validHistory h && createOk); cbn.
  - split; [discriminate|]. split; [eauto|].
    intros H; now contradiction H.
  - split; [discriminate|]. split; [intros H; now contradiction H | auto].
Qed.

Lemma not_create_model parts search :
  ~ In (StoreCall "History.create") [ModelCall parts search].
Proof. intros [H|[]]. discriminate H. Qed.

Lemma analyze_wav st user files refText tgtText reply createOk writeAt :
  writeAfterValidate st
    (analyze st user files refText tgtText reply createOk writeAt)
    (files ≫= fun fs =>
       validated reply (fun v => similarityDoc user fs v writeAt))
    "Similarity analysis failed".
Proof.
  unfold analyze. destruct files as [fs|]; cbn.
  - destruct reply as [|text|v]; cbn;
      try (apply wav_failed; [reflexivity | apply not_create_model]).
    destruct (similarityDoc user fs v writeAt) as [doc|].
    + apply wav_create.
    + apply wav_failed; [reflexivity | apply not_create_model].
  - apply wav_failed; [reflexivity | intros []].
Qed.

Lemma webscan_wav st user file reply createOk writeAt :
  writeAfterValidate st
    (webscan st user file reply createOk writeAt)
    (validated reply (fun v => webScanDoc user file v writeAt))
    "Web scan failed".
Proof.
  unfold webscan.
  destruct reply as [|text|v]; cbn;
    try (apply wav_failed; [reflexivity | apply not_create_model]).
  destruct (webScanDoc user file v writeAt) as [doc|].
  - apply wav_create.
  - apply wav_failed; [reflexivity | apply not_create_model].
Qed.

Lemma summarize_wav st user file reply createOk writeAt :
  writeAfterValidate st
    (summarize st user file reply createOk writeAt)
    (validated reply (fun _ => Normal (summaryDoc user file writeAt)))
    "Summarization failed".
Proof.
  unfold summarize.
  destruct reply as [|text|v]; cbn;
    try (apply wav_failed; [reflexivity | apply not_create_model]).
  apply wav_create.
Qed.

(** C3. Each analysis route writes after validating. When the model
    call fails, its text is not JSON, or building the history document
    from the parsed value throws (a required field is missing), the
    route answers its generic 500, the store is as before and
    [History.create] is not called; the store changes only by
    appending the document built from the parsed output. *)
Theorem write_after_validate
    (st : Store) (user : Decoded) (reply : ModelReply)
    (createOk : bool) (writeAt : Z) :
  (forall files refText tgtText,
     writeAfterValidate st
       (analyze st user files refText tgtText reply createOk writeAt)
       (files ≫= fun fs =>
          validated reply (fun v => similarityDoc user fs v writeAt))
       "Similarity analysis failed") /\
  (forall file,
     writeAfterValidate st
       (webscan st user file reply createOk writeAt)
       (validated reply (fun v => webScanDoc user file v writeAt))
       "Web scan failed") /\
  (forall file,
     writeAfterValidate st
       (summarize st user file reply createOk writeAt)
       (validated reply (fun _ => Normal (summaryDoc user file writeAt)))
       "Summarization failed").
Proof.
  split; [|split]; intros.
  - apply analyze_wav.
  - apply webscan_wav.
  - apply summarize_wav.
Qed.


(** Case analysis on every step of a document builder that may throw. *)
Ltac step_builder :=
  repeat match goal with
  | |- context [match ?c with Normal _ => _ | Throw => _ end] =>
      destruct c; cbn [bindc]; try discriminate
  | |- context [if ?b then _ else _] => destruct b
  end.

Lemma similarityDoc_owner user fs analysis writeAt h :
  similarityDoc user fs analysis writeAt = Normal h ->
  hist_userId h = dec_id user.
Proof.
  unfold similarityDoc, bindc. step_builder; now intros [= <-].
Qed.

Lemma webScanDoc_owner user file scanResult writeAt h :
  webScanDoc user file scanResult writeAt = Normal h ->
  hist_userId h = dec_id user.
Proof.
  unfold webScanDoc, bindc. step_builder; now intros [= <-].
Qed.

Lemma geNumber_num q k : geNumber (JNum q) k = Normal (Qle_bool k q).
Proof. reflexivity. Qed.

(** The entry a route appended is the document it built. *)
Lemma createHistory_appended st doc createOk failure success before h :
  histories (store (createHistory st doc createOk failure success before))
    = (histories st ++ [h])%list ->
  doc = h.
Proof.
  unfold createHistory. destruct (validHistory doc && createOk); cbn.
  - intros H. now apply app_inj_tail in H as [_ ->].
  - intros H. apply (f_equal (@List.length _)) in H.
    rewrite length_app in H. cbn in H. lia.
Qed.

Lemma failed_appended st failure called h :
  histories (store (failed st failure called)) = (histories st ++ [h])%list ->
  False.
Proof.
  cbn. intros H. apply (f_equal (@List.length _)) in H.
  rewrite length_app in H. cbn in H. lia.
Qed.

Lemma analyze_appended st user files refText tgtText reply createOk writeAt h :
  histories (store (analyze st user files refText tgtText reply
                            createOk writeAt))
    = (histories st ++ [h])%list ->
  exists fs v, files = Some fs /\ reply = Parsed v /\
               similarityDoc user fs v writeAt = Normal h.
Proof.
  unfold analyze. destruct files as [fs|];
    [|intros H; now apply failed_appended in H].
  destruct reply as [|text|v];
    try (intros H; now apply failed_appended in H).
  destruct (similarityDoc user fs v writeAt) as [doc|] eqn:Hdoc;
    [|intros H; now apply failed_appended in H].
  intros H. apply createHistory_appended in H. subst doc. eauto.
Qed.

Lemma webscan_appended st user file reply createOk writeAt h :
  histories (store (webscan st user file reply createOk writeAt))
    = (histories st ++ [h])%list ->
  exists v, reply = Parsed v /\ webScanDoc user file v writeAt = Normal h.
Proof.
  unfold webscan.
  destruct reply as [|text|v];
    try (intros H; now apply failed_appended in H).
  destruct (webScanDoc user file v writeAt) as [doc|] eqn:Hdoc;
    [|intros H; now apply failed_appended in H].
  intros H. apply createHistory_appended in H. subst doc. eauto.
Qed.

Lemma summarize_appended st user file reply createOk writeAt h :
  histories (store (summarize st user file reply createOk writeAt))
    = (histories st ++ [h])%list ->
  h = summaryDoc user file writeAt.
Proof.
  unfold summarize.
  destruct reply as [|text|v];
    try (intros H; now apply failed_appended in H).
  intros H. now apply createHistory_appended in H.
Qed.

Lemma numGe_Some q k : numGe (Some q) k = true <-> (k <= q)%Q.
Proof. apply Qle_bool_iff. Qed.

Lemma numGe_false q k : numGe (Some q) k = false <-> (q < k)%Q.
Proof.
  cbn. split; intros H.
  - apply Qnot_le_lt. intros Hle. apply Qle_bool_iff in Hle. congruence.
  - destruct (Qle_bool k q) eqn:E; [|reflexivity].
    apply Qle_bool_iff in E. lra.
Qed.

Lemma numGe_mono n : numGe n 80 = true -> numGe n 50 = true.
Proof.
  destruct n as [q|]; [|discriminate].
  rewrite !numGe_Some. intros. lra.
Qed.

(** The verdict of a similarity document, by the converted score. *)
Lemma similarityDoc_verdict user fs analysis writeAt sim h :
  getProp analysis "similarity_score" = Normal sim ->
  similarityDoc user fs analysis writeAt = Normal h ->
  exists n,
    ToNumber sim = Normal n /\
    toStringMethod sim = Normal (hist_score h) /\
    hist_verdict h = if numGe n 80 then "High"
                     else if numGe n 50 then "Moderate" else "Low".
Proof.
  intros Hsim. unfold similarityDoc, geNumber. rewrite Hsim. cbn [bindc].
  destruct (toStringMethod sim) as [score|]; cbn [bindc]; [|discriminate].
  destruct (getProp analysis "ref_lang") as [rl|]; cbn [bindc];
    [|discriminate].
  destruct (templateString rl) as [rs|]; cbn [bindc]; [|discriminate].
  destruct (getProp analysis "tgt_lang") as [tl|]; cbn [bindc];
    [|discriminate].
  destruct (templateString tl) as [ts|]; cbn [bindc]; [|discriminate].
  destruct (ToNumber sim) as [n|]; cbn [bindc]; [|discriminate].
  exists n. split; [reflexivity|].
  destruct (numGe n 80); cbn [bindc];
    [|destruct (numGe n 50)]; injection H as <-; auto.
Qed.

(** C6. The entry [/api/analyze] appends has verdict "High" exactly
    when the score, converted to a number as [>=] converts it, is at
    least 80, "Moderate" exactly when it is at least 50 and not at
    least 80, and "Low" otherwise. For a parsed output whose
    [similarity_score] is a number [q]: "High" iff [q >= 80],
    "Moderate" iff [50 <= q < 80], "Low" iff [q < 50], and the
    recorded score is [q] printed. *)
Theorem similarity_verdict_thresholds
    (st : Store) (user : Decoded) (files : option AnalyzeFiles)
    (refText tgtText : option string) (analysis sim : jsval)
    (createOk : bool) (writeAt : Z) (h : History) :
  getProp analysis "similarity_score" = Normal sim ->
  histories (store (analyze st user files refText tgtText (Parsed analysis)
                            createOk writeAt))
    = (histories st ++ [h])%list ->
  exists n,
    ToNumber sim = Normal n /\
    (hist_verdict h = "High" <-> numGe n 80 = true) /\
    (hist_verdict h = "Moderate" <->
       numGe n 50 = true /\ numGe n 80 = false) /\
    (hist_verdict h = "Low" <-> numGe n 50 = false) /\
    forall q, sim = JNum q ->
      (hist_verdict h = "High" <-> (80 <= q)%Q) /\
      (hist_verdict h = "Moderate" <-> (50 <= q)%Q /\ (q < 80)%Q) /\
      (hist_verdict h = "Low" <-> (q < 50)%Q) /\
      hist_score h = NumberToString q.
Proof.
  intros Hsim Happ.
  destruct (analyze_appended _ _ _ _ _ _ _ _ _ Happ)
    as (fs & v & _ & [= <-] & Hdoc).
  destruct (similarityDoc_verdict _ _ _ _ _ _ Hsim Hdoc)
    as (n & Hn & Hscore & Hv).
  assert (Hgen :
    (hist_verdict h = "High" <-> numGe n 80 = true) /\
    (hist_verdict h = "Moderate" <->
       numGe n 50 = true /\ numGe n 80 = false) /\
    (hist_verdict h = "Low" <-> numGe n 50 = false)).
  { rewrite Hv. destruct (numGe n 80) eqn:H80.
    - pose proof (numGe_mono n H80) as H50. rewrite H50.
      split; [split; auto|]. split; split; try discriminate.
      intros [_ H]; discriminate H.
    - destruct (numGe n 50) eqn:H50.
      + split; [split; discriminate|]. split; split; auto; discriminate.
      + split; [split; discriminate|].
        split; split; auto; try discriminate. intros [H _]; discriminate H. }
  exists n. split; [exact Hn|].
  destruct Hgen as (Hhigh & Hmod & Hlow).
  split; [exact Hhigh|]. split; [exact Hmod|]. split; [exact Hlow|].
  intros q ->. cbn in Hn, Hscore. injection Hn as <-. injection Hscore as <-.
  rewrite Hhigh, Hmod, Hlow, !numGe_Some, !numGe_false.
  repeat split; tauto.
Qed.

(** The document of a web scan whose [sources] is an array. *)
Lemma webScanDoc_array user file scanResult writeAt items :
  getProp scanResult "sources" = Normal (JArr items) ->
  webScanDoc user file scanResult writeAt =
    let score := getPropOpt (match items with
                             | [] => JUndefined
                             | x :: _ => x
                             end) "score" in
    got scoreStr := toStringOpt score in
    got high := geNumber score 80 in
    Normal {| hist_userId := dec_id user;
              hist_type := "Web Scan";
              hist_docs := nameOr file "Document";
              hist_score := orElse scoreStr "0";
              hist_details :=
                NumberToString (inject_Z (Z.of_nat (List.length items)))
                ++ " sources found";
              hist_verdict := if high : bool then "High Risk" else "Pass";
              hist_createdAt := writeAt |}.
Proof.
  intros Hsrc. unfold webScanDoc. rewrite Hsrc. cbn [bindc getIndex0].
  destruct (toStringOpt _) as [scoreStr|]; reflexivity.
Qed.

(** C7. The entry [/api/webscan] appends. With [sources = []] its
    score is "0" and its verdict "Pass" (and that document is built
    without a throw). With a first source, the verdict is "High Risk"
    exactly when that source's score, converted to a number as [>=]
    converts it, is at least 80, and "Pass" otherwise; the recorded
    score is that score's [toString()], or "0" when the score is
    absent, [null] or prints as the empty string. For a number [q] as
    score: "High Risk" iff [q >= 80], "Pass" iff [q < 80], and the
    recorded score is [q] printed. *)
Theorem webscan_defaults_and_verdict
    (st : Store) (user : Decoded) (file : option File) (scanResult : jsval)
    (createOk : bool) (writeAt : Z) :
  let o := webscan st user file (Parsed scanResult) createOk writeAt in
  (getProp scanResult "sources" = Normal (JArr []) ->
     (exists h, webScanDoc user file scanResult writeAt = Normal h) /\
     forall h, histories (store o) = (histories st ++ [h])%list ->
               hist_score h = "0" /\ hist_verdict h = "Pass") /\
  (forall first rest h,
     getProp scanResult "sources" = Normal (JArr (first :: rest)) ->
     histories (store o) = (histories st ++ [h])%list ->
     let score := getPropOpt first "score" in
     exists n printed,
       ToNumber score = Normal n /\
       toStringOpt score = Normal printed /\
       hist_score h = orElse printed "0" /\
       (hist_verdict h = "High Risk" <-> numGe n 80 = true) /\
       (hist_verdict h = "Pass" <-> numGe n 80 = false) /\
       (forall q, score = JNum q ->
          (hist_verdict h = "High Risk" <-> (80 <= q)%Q) /\
          (hist_verdict h = "Pass" <-> (q < 80)%Q) /\
          (NumberToString q <> "" -> hist_score h = NumberToString q)) /\
       (score = JUndefined \/ score = JNull ->
          hist_score h = "0" /\ hist_verdict h = "Pass")).
Proof.
  intros o. subst o. split.
  - intros Hsrc.
    pose proof (webScanDoc_array user file _ writeAt _ Hsrc) as Hdoc.
    cbn in Hdoc. split; [eauto|].
    intros h Happ.
    destruct (webscan_appended _ _ _ _ _ _ _ Happ) as (v & [= <-] & Hh).
    rewrite Hdoc in Hh. injection Hh as <-. now cbn.
  - intros first rest h Hsrc Happ score.
    destruct (webscan_appended _ _ _ _ _ _ _ Happ) as (v & [= <-] & Hh).
    rewrite (webScanDoc_array user file _ writeAt _ Hsrc) in Hh.
    cbn zeta in Hh. fold score in Hh. unfold geNumber in Hh.
    destruct (toStringOpt score) as [printed|] eqn:Hprinted;
      cbn [bindc] in Hh; [|discriminate].
    destruct (ToNumber score) as [n|] eqn:Hn; cbn [bindc] in Hh;
      [|discriminate].
    injection Hh as <-. cbn [hist_verdict hist_score].
    exists n, printed.
    assert (Hgen :
      ((if numGe n 80 then "High Risk" else "Pass") = "High Risk"
         <-> numGe n 80 = true) /\
      ((if numGe n 80 then "High Risk" else "Pass") = "Pass"
         <-> numGe n 80 = false)).
    { destruct (numGe n 80); split; split; auto; discriminate. }
    destruct Hgen as [Hhigh Hpass].
    split; [reflexivity|]. split; [reflexivity|]. split; [reflexivity|].
    split; [exact Hhigh|]. split; [exact Hpass|]. split.
    + intros q Hq. rewrite Hq in Hn, Hprinted.
      cbn in Hn, Hprinted. injection Hn as <-. injection Hprinted as <-.
      rewrite Hhigh, Hpass, numGe_Some, numGe_false.
      repeat split; try tauto. apply orElse_truthy.
    + intros [Hq|Hq]; rewrite Hq in Hn, Hprinted; cbn in Hn, Hprinted;
        injection Hn as <-; injection Hprinted as <-; now cbn.
Qed.

(** *** Ownership of history entries *)

Lemma identityExists_users st st' id :
  users st' = users st -> identityExists st id -> identityExists st' id.
Proof. intros Heq (ph & u & Hu & Hid). exists ph, u. now rewrite Heq. Qed.

Lemma upsertOtp_identity st phone otp e now id :
  identityExists st id -> identityExists (upsertOtp st phone otp e now) id.
Proof.
  intros (ph & u & Hu & Hid). unfold upsertOtp, identityExists.
  destruct (decide (ph = phone)) as [->|Hne].
  - rewrite Hu. cbn. eexists phone, _. rewrite lookup_insert_eq.
    split; [reflexivity | exact Hid].
  - exists ph, u. split; [|exact Hid].
    destruct (users st !! phone); cbn; now rewrite lookup_insert_ne.
Qed.

Lemma clearOtp_identity st phone u id :
  users st !! phone = Some u ->
  identityExists st id -> identityExists (clearOtp st phone u) id.
Proof.
  intros Hu (ph & v & Hv & Hid). unfold clearOtp, identityExists; cbn.
  destruct (decide (ph = phone)) as [->|Hne].
  - eexists phone, _. rewrite lookup_insert_eq.
    split; [reflexivity|]. cbn. congruence.
  - exists ph, v. now rewrite lookup_insert_ne.
Qed.

Lemma failed_owned st user failure called :
  ownedWrite st user (failed st failure called).
Proof. unfold ownedWrite, failed, issuedBy; cbn. auto. Qed.

Lemma createHistory_owned st user doc createOk failure v before :
  hist_userId doc = dec_id user ->
  ownedWrite st user (createHistory st doc createOk failure (BJson v) before).
Proof.
  intros Hid. unfold ownedWrite, createHistory, issuedBy.
  destruct (validHistory doc && createOk); cbn; eauto 6.
Qed.

Lemma analyze_owned st user files refText tgtText reply createOk writeAt :
  ownedWrite st user
    (analyze st user files refText tgtText reply createOk writeAt).
Proof.
  unfold analyze. destruct files as [fs|]; [|apply failed_owned].
  destruct reply as [|text|v]; try apply failed_owned.
  destruct (similarityDoc user fs v writeAt) as [doc|] eqn:Hdoc;
    [|apply failed_owned].
  apply createHistory_owned. eapply similarityDoc_owner, Hdoc.
Qed.

Lemma webscan_owned st user file reply createOk writeAt :
  ownedWrite st user (webscan st user file reply createOk writeAt).
Proof.
  unfold webscan. destruct reply as [|text|v]; try apply failed_owned.
  destruct (webScanDoc user file v writeAt) as [doc|] eqn:Hdoc;
    [|apply failed_owned].
  apply createHistory_owned. eapply webScanDoc_owner, Hdoc.
Qed.

Lemma summarize_owned st user file reply createOk writeAt :
  ownedWrite st user (summarize st user file reply createOk writeAt).
Proof.
  unfold summarize. destruct reply as [|text|v]; try apply failed_owned.
  now apply createHistory_owned.
Qed.

Lemma history_owned st user findOk :
  ownedWrite st user (history st user findOk).
Proof.
  unfold ownedWrite, history, issuedBy. destruct findOk; cbn; auto.
Qed.

(** A route behind [authMiddleware] either leaves everything as it was
    or is its handler run for the decoded identity. *)
Lemma withAuth_owned env now a st handler :
  (forall user, ownedWrite st user (handler user)) ->
  users (store (withAuth env now a st handler)) = users st /\
  issuedBy (withAuth env now a st handler) = [] /\
  (histories (store (withAuth env now a st handler)) = histories st \/
   exists user h,
     authMiddleware env now a = Next user /\
     histories (store (withAuth env now a st handler))
       = (histories st ++ [h])%list /\
     hist_userId h = dec_id user).
Proof.
  intros Hh. unfold withAuth.
  destruct (authMiddleware env now a) as [r|user] eqn:Hauth.
  - cbn. split; [reflexivity|]. split; [|now left].
    unfold authMiddleware in Hauth.
    destruct (negb _); [now injection Hauth as <-|].
    destruct (jwt_verify _ _ _); [discriminate|]. now injection Hauth as <-.
  - destruct (Hh user) as (Hu & Hi & [Hsame | (h & Happ & Hid)]).
    + auto.
    + split; [exact Hu|]. split; [exact Hi|]. right. eauto.
Qed.

Lemma send_otp_facts now st phone rnd upsertOk :
  let o := send_otp now st phone rnd upsertOk in
  histories (store o) = histories st /\ issuedBy o = [] /\
  forall id, identityExists st id -> identityExists (store o) id.
Proof.
  unfold send_otp, issuedBy.
  destruct (negb (truthyStr phone)); cbn; [auto|].
  destruct upsertOk; cbn; [|auto].
  split; [|split; [reflexivity|]].
  - unfold upsertOtp. now destruct (users st !! _).
  - intros id. apply upsertOtp_identity.
Qed.

Lemma verify_otp_facts env now st phone otp findOk saveOk signAt :
  let o := verify_otp env now st phone otp findOk saveOk signAt in
  histories (store o) = histories st /\
  (forall id, identityExists st id -> identityExists (store o) id) /\
  forall token, In token (issuedBy o) ->
    exists c,
      token = jwt_sign c (orElse (JWT_SECRET env) "fallback_secret_key")
                       "7d" signAt /\
      identityExists st (claim_id c).
Proof.
  cbn zeta.
  destruct (Z.eq_dec
    (status (resp (verify_otp env now st phone otp findOk saveOk signAt)))
    200) as [Hok|Hno].
  - destruct (verify_otp_success _ _ _ _ _ _ _ _ Hok)
      as (ph & u & -> & Hu & _ & _ & _ & _ & ->).
    cbn [store resp]. split; [reflexivity|]. split.
    + intros id. now apply clearOtp_identity.
    + unfold issuedBy; cbn. intros token [<-|[]].
      eexists. split; [reflexivity|]. cbn. now exists ph, u.
  - rewrite (verify_otp_no_token _ _ _ _ _ _ _ _ Hno).
    split; [|split; [|intros token []]].
    + unfold verify_otp in *. destruct findOk; cbn in *; [|reflexivity].
      destruct (phone ≫= _); cbn in *; [|reflexivity].
      destruct (negb _); cbn in *; [reflexivity|].
      destruct (dateLt _ _); cbn in *; [reflexivity|].
      destruct (negb saveOk); cbn in *; [reflexivity|].
      now contradiction Hno.
    + unfold verify_otp in *. destruct findOk; cbn in *; [|auto].
      destruct (phone ≫= _); cbn in *; [|auto].
      destruct (negb _); cbn in *; [auto|].
      destruct (dateLt _ _); cbn in *; [auto|].
      destruct (negb saveOk); cbn in *; [auto|].
      now contradiction Hno.
Qed.


(** What handling one request does to identities, history and tokens. *)
Lemma handle_facts env now st r :
  let o := handle env now st r in
  (forall id, identityExists st id -> identityExists (store o) id) /\
  (histories (store o) = histories st \/
   exists user h,
     authMiddleware env now (authorizationOf r) = Next user /\
     histories (store o) = (histories st ++ [h])%list /\
     hist_userId h = dec_id user) /\
  (forall token, In token (issuedBy o) ->
     exists c t,
       token = jwt_sign c (orElse (JWT_SECRET env) "fallback_secret_key")
                        "7d" t /\
       identityExists st (claim_id c)).
Proof.
  assert (Hprot : forall a handler,
    (forall user, ownedWrite st user (handler user)) ->
    let o := withAuth env now a st handler in
    (forall id, identityExists st id -> identityExists (store o) id) /\
    (histories (store o) = histories st \/
     exists user h,
       authMiddleware env now a = Next user /\
       histories (store o) = (histories st ++ [h])%list /\
       hist_userId h = dec_id user) /\
    (forall token, In token (issuedBy o) ->
       exists c t,
         token = jwt_sign c (orElse (JWT_SECRET env) "fallback_secret_key")
                          "7d" t /\
         identityExists st (claim_id c))).
  { intros a handler Hh.
    destruct (withAuth_owned env now a st handler Hh) as (Hu & Hi & Hhist).
    cbn zeta. rewrite Hi. split; [|split; [exact Hhist | intros token []]].
    intros id. now apply identityExists_users. }
  destruct r; cbn [handle authorizationOf].
  - destruct (send_otp_facts now st phone rnd upsertOk) as (Hh & Hi & Hid).
    cbn zeta. rewrite Hi. split; [exact Hid|].
    split; [now left | intros token []].
  - destruct (verify_otp_facts env now st phone otp findOk saveOk signAt)
      as (Hh & Hid & Htok).
    cbn zeta. split; [exact Hid|]. split; [now left|].
    intros token Hin. destruct (Htok token Hin) as (c & -> & Hc). eauto.
  - apply Hprot. intros user. apply analyze_owned.
  - apply Hprot. intros user. apply webscan_owned.
  - apply Hprot. intros user. apply summarize_owned.
  - apply Hprot. intros user. apply history_owned.
Qed.

(** The identity [authMiddleware] attaches to an unforged request
    exists in the store. *)
Lemma accepted_identity env st issued now r user :
  JwtContract ->
  tokensKnown env st issued ->
  unforged env now issued r ->
  authMiddleware env now (authorizationOf r) = Next user ->
  identityExists st (dec_id user).
Proof.
  intros K Hknown Hunf Hauth.
  destruct (authMiddleware_next _ _ _ _ Hauth) as (token & Htok & _ & Hv).
  destruct (Hknown token (Hunf token user Htok Hv)) as (c & t & -> & Hc).
  destruct (truthyStr (JWT_SECRET env)) eqn:Hsec.
  - destruct (JWT_SECRET env) as [s|] eqn:Hs; [|discriminate Hsec].
    apply truthyStr_Some in Hsec.
    rewrite (orElse_truthy s _ Hsec) in Hv.
    rewrite (verify_signed K c s t now Hsec) in Hv.
    destruct (_ <? _); [|discriminate Hv].
    injection Hv as <-. exact Hc.
  - rewrite (verify_no_secret K _ _ _ _ _ _ Hsec) in Hv. discriminate Hv.
Qed.

Lemma reachable_invariant env st issued :
  JwtContract ->
  reachable env st issued ->
  ownersExist st /\ tokensKnown env st issued.
Proof.
  intros K Hreach. induction Hreach as [|st issued now r Hreach [IHo IHt] Hunf].
  - split; [intros h [] | intros token []].
  - destruct (handle_facts env now st r) as (Hid & Hhist & Htok).
    split.
    + intros h Hin. destruct Hhist as [Hsame | (user & h' & Hauth & Happ & Hown)].
      * rewrite Hsame in Hin. apply Hid, IHo, Hin.
      * rewrite Happ in Hin. apply in_app_or in Hin as [Hin | [<- | []]].
        -- apply Hid, IHo, Hin.
        -- rewrite Hown. apply Hid.
           exact (accepted_identity env st issued now r user K IHt Hunf Hauth).
    + intros token Hin. apply in_app_or in Hin as [Hin | Hin].
      * destruct (Htok token Hin) as (c & t & -> & Hc). eauto.
      * destruct (IHt token Hin) as (c & t & -> & Hc). eauto.
Qed.

(** C8. In every store the server reaches from the empty one, while
    the tokens that verify are those the server handed out, each
    history entry is owned by an identity of the store; and when an
    analysis route appends an entry, its [userId] is the [_id] of an
    identity that is in the store at that moment. *)
Theorem history_owner_exists (env : Env) (st : Store) (issued : list string) :
  JwtContract ->
  reachable env st issued ->
  (forall h, In h (histories st) -> identityExists st (hist_userId h)) /\
  (forall now r h,
     unforged env now issued r ->
     histories (store (handle env now st r)) = (histories st ++ [h])%list ->
     identityExists st (hist_userId h)).
Proof.
  intros K Hreach.
  destruct (reachable_invariant env st issued K Hreach) as [Ho Ht].
  split; [exact Ho|].
  intros now r h Hunf Happ.
  destruct (handle_facts env now st r)
    as (_ & [Hsame | (user & h' & Hauth & Happ' & Hown)] & _).
  - rewrite Hsame in Happ. apply (f_equal (@List.length _)) in Happ.
    rewrite length_app in Happ. cbn in Happ. lia.
  - rewrite Happ' in Happ. apply app_inj_tail in Happ as [_ ->].
    rewrite Hown.
    exact (accepted_identity env st issued now r user K Ht Hunf Hauth).
Qed.


Lemma run_reachable env trace : forall st issued,
  reachable env st issued ->
  unforgedTrace env st issued trace ->
  reachable env (run env st issued trace).1 (run env st issued trace).2.
Proof.
  induction trace as [|[now r] rest IH]; intros st issued Hreach Hunf.
  - exact Hreach.
  - destruct Hunf as [Hr Hrest]. cbn [run]. apply IH; [|exact Hrest].
    now apply reach_handle.
Qed.

(** A request without an Authorization header presents no token. *)
Lemma unforged_no_header env now issued r :
  authorizationOf r = None -> unforged env now issued r.
Proof. intros Hnone token decoded. rewrite Hnone. discriminate. Qed.

Lemma unforged_bearer env now issued r token :
  authorizationOf r = Some ("Bearer " ++ token) ->
  In token issued ->
  unforged env now issued r.
Proof.
  intros Hhdr Hin token' decoded. rewrite Hhdr, bearerToken_bearer.
  now intros [= <-] _.
Qed.

(** ** Further properties of the routes *)

(** *** Requesting a challenge *)

(** X1. Requesting a second challenge for a phone replaces the first:
    the first code is then refused with "Invalid OTP" and the second
    logs in within its own window. *)
Theorem second_challenge_invalidates_first
    (env : Env) (st : Store) (phone : string) (rnd1 rnd2 : Q)
    (t0 t0' t1 signAt : Z) (saveOk : bool) :
  phone <> "" ->
  generateOtp rnd1 <> generateOtp rnd2 ->
  let st1 := store (send_otp t0 st (Some phone) rnd1 true) in
  let st2 := store (send_otp t0' st1 (Some phone) rnd2 true) in
  resp (verify_otp env t1 st2 (Some phone) (JStr (generateOtp rnd1))
                   true saveOk signAt)
    = errorJson 400 "Invalid OTP" /\
  (t1 <= t0' + 600000 ->
     status (resp (verify_otp env t1 st2 (Some phone)
                              (JStr (generateOtp rnd2)) true true signAt))
       = 200).
Proof.
  intros Hne Hdiff st1 st2. subst st1 st2.
  rewrite !(send_otp_issued _ _ phone _ Hne). cbn [store].
  destruct (upsertOtp_lookup
              (upsertOtp st phone (generateOtp rnd1) (t0 + 10 * 60000) t0)
              phone (generateOtp rnd2) (t0' + 10 * 60000) t0')
    as (u & Hu & Hotp & Hexp).
  rewrite !(verify_otp_found _ _ _ _ _ _ _ _ Hu), Hotp, Hexp.
  split.
  - assert (Hneq : strictEq (Some (generateOtp rnd2))
                            (JStr (generateOtp rnd1)) = false).
    { cbn. apply String.eqb_neq. congruence. }
    now rewrite Hneq.
  - intros Hwin. rewrite strictEq_same.
    assert (Hnot : dateLt (Some (t0' + 10 * 60000)) t1 = false)
      by (cbn; apply Z.ltb_ge; lia).
    now rewrite Hnot.
Qed.



(** X4. [/api/auth/send-otp] writes one document and nothing else: the
    history and the documents of other phones are as before; a known
    phone keeps its [_id] and creation time and gets the new code with
    an expiry 600000 ms after the request; an unknown phone gets a new
    document with the next [_id]. *)
Theorem send_otp_touches_one_document
    (now : Z) (st : Store) (phone : option string) (rnd : Q)
    (upsertOk : bool) :
  let o := send_otp now st phone rnd upsertOk in
  histories (store o) = histories st /\
  (forall other, phone <> Some other ->
     users (store o) !! other = users st !! other) /\
  (forall ph u, phone = Some ph -> users st !! ph = Some u ->
     status (resp o) = 200 ->
     users (store o) !! ph
       = Some {| user_id := user_id u;
                 user_otp := Some (generateOtp rnd);
                 user_otpExpires := Some (now + 600000);
                 user_createdAt := user_createdAt u |}) /\
  (forall ph, phone = Some ph -> users st !! ph = None ->
     status (resp o) = 200 ->
     users (store o) !! ph
       = Some {| user_id := nextId st;
                 user_otp := Some (generateOtp rnd);
                 user_otpExpires := Some (now + 600000);
                 user_createdAt := now |}).
Proof.
  cbn zeta. unfold send_otp.
  destruct (negb (truthyStr phone)) eqn:Hfalsy; cbn [store resp status].
  - repeat split; try reflexivity; intros; discriminate.
  - destruct upsertOk; cbn [store resp status errorJson okJson];
      [|repeat split; try reflexivity; intros; discriminate].
    destruct phone as [ph|]; [|discriminate Hfalsy].
    change (default "" (Some ph)) with ph. unfold upsertOtp.
    split; [destruct (users st !! ph); reflexivity|]. split; [|split].
    + intros other Hother.
      destruct (users st !! ph); cbn [users];
        apply lookup_insert_ne; congruence.
    + intros ph' u [= <-] Hu _. rewrite Hu. cbn [users].
      now rewrite lookup_insert_eq.
    + intros ph' [= <-] Hu _. rewrite Hu. cbn [users].
      now rewrite lookup_insert_eq.
Qed.

(** X5. A code issued at [t0] is refused as expired at every clock
    reading later than [t0 + 600000] ms, and the refusal leaves the
    stale challenge in the store. *)
Theorem issued_code_expires_after_ten_minutes
    (env : Env) (st : Store) (phone : string) (rnd : Q)
    (t0 t1 signAt : Z) (saveOk : bool) :
  phone <> "" ->
  t0 + 600000 < t1 ->
  let requested := store (send_otp t0 st (Some phone) rnd true) in
  let o := verify_otp env t1 requested (Some phone)
                      (JStr (generateOtp rnd)) true saveOk signAt in
  resp o = errorJson 400 "OTP expired" /\ store o = requested.
Proof.
  intros Hne Hlate requested o. subst o requested.
  rewrite (send_otp_issued _ _ phone _ Hne). cbn [store].
  destruct (upsertOtp_lookup st phone (generateOtp rnd) (t0 + 10 * 60000) t0)
    as (u & Hu & Hotp & Hexp).
  rewrite (verify_otp_found _ _ _ _ _ _ _ _ Hu), Hotp, Hexp, strictEq_same.
  assert (Hlt : dateLt (Some (t0 + 10 * 60000)) t1 = true)
    by (cbn; apply Z.ltb_lt; lia).
  rewrite Hlt. split; reflexivity.
Qed.

(** *** Verifying a challenge *)

Lemma verify_otp_statuses env now st phone otp findOk saveOk signAt :
  let o := verify_otp env now st phone otp findOk saveOk signAt in
  (status (resp o) = 200 \/ store o = st) /\
  (status (resp o) = 200 \/ status (resp o) = 400 \/
   status (resp o) = 404 \/ status (resp o) = 500).
Proof.
  cbn zeta. unfold verify_otp.
  destruct findOk; cbn; [|auto].
  destruct (phone ≫= _); cbn; [|auto].
  destruct (strictEq _ _); cbn; [|auto].
  destruct (dateLt _ _); cbn; [auto|].
  destruct saveOk; cbn; auto.
Qed.

(** X6. A verification that does not log in changes nothing: the store
    is as before, so the pending challenge stays usable, no token is
    handed out, and the status is 400, 404 or 500. *)
Theorem failed_verification_changes_nothing
    (env : Env) (now : Z) (st : Store) (phone : option string) (otp : jsval)
    (findOk saveOk : bool) (signAt : Z) :
  let o := verify_otp env now st phone otp findOk saveOk signAt in
  status (resp o) <> 200 ->
  store o = st /\ issuedBy o = [] /\
  (status (resp o) = 400 \/ status (resp o) = 404 \/ status (resp o) = 500).
Proof.
  intros o Hno. subst o.
  destruct (verify_otp_statuses env now st phone otp findOk saveOk signAt)
    as [[Hok|Hst] [Hok'|Hother]]; try contradiction.
  split; [exact Hst|]. split; [|exact Hother].
  now apply verify_otp_no_token.
Qed.

(** *** What every request keeps *)

(** The [User] collection after a request: as before, after an upsert of
    one challenge, or after clearing the challenge of a found document. *)
Lemma handle_users env now st r :
  users (store (handle env now st r)) = users st \/
  (exists ph otp e t,
     users (store (handle env now st r)) = users (upsertOtp st ph otp e t)) \/
  (exists ph u,
     users st !! ph = Some u /\
     users (store (handle env now st r)) = users (clearOtp st ph u)).
Proof.
  destruct r; cbn [handle].
  - unfold send_otp. destruct (negb (truthyStr phone)); [now left|].
    destruct upsertOk; [|now left]. right. left. cbn [store]. eauto.
  - destruct (verify_otp_statuses env now st phone otp findOk saveOk signAt)
      as [[Hok|Hst] _].
    + destruct (verify_otp_success _ _ _ _ _ _ _ _ Hok)
        as (ph & u & _ & Hu & _ & _ & _ & _ & ->).
      right. right. exists ph, u. now split.
    + left. now rewrite Hst.
  - left. apply withAuth_owned. intros user. apply analyze_owned.
  - left. apply withAuth_owned. intros user. apply webscan_owned.
  - left. apply withAuth_owned. intros user. apply summarize_owned.
  - left. apply withAuth_owned. intros user. apply history_owned.
Qed.

Lemma upsertOtp_other st ph otp e t other :
  other <> ph ->
  users (upsertOtp st ph otp e t) !! other = users st !! other.
Proof.
  intros Hne. unfold upsertOtp.
  destruct (users st !! ph); cbn [users]; apply lookup_insert_ne; congruence.
Qed.

Lemma clearOtp_other st ph u other :
  other <> ph -> users (clearOtp st ph u) !! other = users st !! other.
Proof.
  intros Hne. unfold clearOtp; cbn [users]. apply lookup_insert_ne. congruence.
Qed.

Lemma handle_keeps_pairing env now st r :
  challengePaired st -> challengePaired (store (handle env now st r)).
Proof.
  intros Hp phone u.
  destruct (handle_users env now st r)
    as [-> | [(ph & otp & e & t & ->) | (ph & v & Hv & ->)]].
  - apply Hp.
  - destruct (decide (phone = ph)) as [->|Hne].
    + destruct (upsertOtp_lookup st ph otp e t) as (u' & Hu' & Ho & He).
      rewrite Hu'. intros [= <-]. rewrite Ho, He. split; discriminate.
    + rewrite (upsertOtp_other _ _ _ _ _ _ Hne). apply Hp.
  - destruct (decide (phone = ph)) as [->|Hne].
    + destruct (clearOtp_lookup st ph v) as (u' & Hu' & Ho & He).
      rewrite Hu'. intros [= <-]. rewrite Ho, He. split; reflexivity.
    + rewrite (clearOtp_other _ _ _ _ Hne). apply Hp.
Qed.

(** X7. In every store the server reaches, the code and the expiry of a
    document are both set or both [null]: no request leaves a code
    without an expiry or an expiry without a code. *)
Theorem challenge_fields_stay_paired
    (env : Env) (st : Store) (issued : list string) :
  reachable env st issued -> challengePaired st.
Proof.
  induction 1 as [|st issued now r _ IH _].
  - intros phone u. cbn. rewrite lookup_empty. discriminate.
  - now apply handle_keeps_pairing.
Qed.

Lemma handle_keeps_identity env now st r ph u :
  users st !! ph = Some u ->
  exists u', users (store (handle env now st r)) !! ph = Some u'
             /\ user_id u' = user_id u
             /\ user_createdAt u' = user_createdAt u.
Proof.
  intros Hu.
  destruct (handle_users env now st r)
    as [-> | [(ph' & otp & e & t & ->) | (ph' & v & Hv & ->)]].
  - eauto.
  - destruct (decide (ph = ph')) as [<-|Hne].
    + unfold upsertOtp. rewrite Hu. cbn [users].
      rewrite lookup_insert_eq. eauto.
    + rewrite (upsertOtp_other _ _ _ _ _ _ Hne). eauto.
  - destruct (decide (ph = ph')) as [<-|Hne].
    + unfold clearOtp; cbn [users]. rewrite lookup_insert_eq.
      rewrite Hu in Hv. injection Hv as <-. eauto.
    + rewrite (clearOtp_other _ _ _ _ Hne). eauto.
Qed.

(** X8. No sequence of requests removes an identity or changes its
    [_id] or creation time: a phone that has a document keeps one, with
    the same [_id] and [createdAt], whatever is requested afterwards. *)
Theorem identity_is_stable (env : Env) (trace : list (Z * Request)) :
  forall (st : Store) (issued : list string) (ph : string) (u : User),
    users st !! ph = Some u ->
    exists u', users (run env st issued trace).1 !! ph = Some u'
               /\ user_id u' = user_id u
               /\ user_createdAt u' = user_createdAt u.
Proof.
  induction trace as [|[now r] rest IH]; intros st issued ph u Hu.
  - cbn. eauto.
  - cbn [run].
    destruct (handle_keeps_identity env now st r ph u Hu)
      as (u1 & Hu1 & Hid1 & Hc1).
    destruct (IH _ (issuedBy (handle env now st r) ++ issued)%list ph u1 Hu1)
      as (u' & Hu' & Hid' & Hc').
    exists u'. split; [exact Hu'|]. split; congruence.
Qed.

(** X9. The history is append-only: after any sequence of requests the
    earlier entries are still there, unchanged and in place, followed
    by at most one new entry per request. *)
Theorem history_is_append_only (env : Env) (trace : list (Z * Request)) :
  forall (st : Store) (issued : list string),
    exists added,
      histories (run env st issued trace).1 = (histories st ++ added)%list
      /\ (List.length added <= List.length trace)%nat.
Proof.
  induction trace as [|[now r] rest IH]; intros st issued.
  - exists []. cbn. now rewrite app_nil_r.
  - cbn [run].
    destruct (IH (store (handle env now st r))
                 (issuedBy (handle env now st r) ++ issued)%list)
      as (added & Heq & Hlen).
    destruct (handle_facts env now st r)
      as (_ & [Hsame | (user & h & _ & Happ & _)] & _).
    + exists added. rewrite Heq, Hsame. split; [reflexivity | cbn; lia].
    + exists (h :: added). rewrite Heq, Happ, <- app_assoc.
      split; [reflexivity | cbn; lia].
Qed.

(** *** The history route *)

Lemma insertDesc_perm h l : Permutation (insertDesc h l) (h :: l).
Proof.
  induction l as [|x rest IH]; cbn; [reflexivity|].
  destruct (hist_createdAt x <? hist_createdAt h); [reflexivity|].
  rewrite IH. apply perm_swap.
Qed.

Lemma sortDesc_perm l : Permutation (sortDesc l) l.
Proof.
  induction l as [|x rest IH]; cbn; [reflexivity|].
  rewrite insertDesc_perm. now constructor.
Qed.

Lemma insertDesc_sorted h l :
  StronglySorted newerFirst l -> StronglySorted newerFirst (insertDesc h l).
Proof.
  induction 1 as [|x rest Hrest IH Hx]; cbn.
  - constructor; constructor.
  - destruct (hist_createdAt x <? hist_createdAt h) eqn:Hlt.
    + apply Z.ltb_lt in Hlt. constructor; [now constructor|].
      constructor; [unfold newerFirst; lia|].
      eapply Forall_impl; [exact Hx|].
      unfold newerFirst. intros y Hy. lia.
    + apply Z.ltb_ge in Hlt. constructor; [exact IH|].
      apply List.Forall_forall. intros y Hy.
      apply (Permutation_in _ (insertDesc_perm h rest)) in Hy.
      destruct Hy as [<-|Hy]; [exact Hlt|].
      rewrite List.Forall_forall in Hx. now apply Hx.
Qed.

Lemma sortDesc_sorted l : StronglySorted newerFirst (sortDesc l).
Proof.
  induction l as [|x rest IH]; cbn; [constructor|].
  now apply insertDesc_sorted.
Qed.

Lemma history_entries st user :
  resp (history st user true)
    = okJson (BHistory
        (sortDesc (filter (fun h => hist_userId h = dec_id user)
                          (histories st)))).
Proof. reflexivity. Qed.

Lemma In_own_entries st user h :
  In h (sortDesc (filter (fun h => hist_userId h = dec_id user)
                         (histories st)))
  <-> In h (histories st) /\ hist_userId h = dec_id user.
Proof.
  rewrite <- !list_elem_of_In.
  rewrite (sortDesc_perm _), list_elem_of_filter. tauto.
Qed.

(** X10. [/api/history] answers with exactly the entries of the store
    whose [userId] is the requester's, each as often as it is stored and
    none of another identity; with no entry of the requester the list
    is empty; the store is left as it was. *)
Theorem history_lists_own_entries (st : Store) (user : Decoded) :
  exists entries,
    resp (history st user true) = okJson (BHistory entries) /\
    store (history st user true) = st /\
    Permutation entries
      (filter (fun h => hist_userId h = dec_id user) (histories st)) /\
    (forall h, In h entries <->
               In h (histories st) /\ hist_userId h = dec_id user) /\
    ((forall h, In h (histories st) -> hist_userId h <> dec_id user) ->
     entries = []).
Proof.
  eexists. split; [apply history_entries|]. split; [reflexivity|].
  split; [apply sortDesc_perm|]. split; [apply In_own_entries|].
  intros Hnone. apply Permutation_nil. symmetry.
  rewrite (sortDesc_perm _).
  destruct (filter _ (histories st)) as [|x l] eqn:Hf; [reflexivity|].
  assert (Hx : x ∈ filter (fun h => hist_userId h = dec_id user)
                          (histories st)) by (rewrite Hf; left).
  apply list_elem_of_filter in Hx as [Hown Hin].
  apply list_elem_of_In in Hin. now destruct (Hnone x Hin).
Qed.

(** X11. The list [/api/history] answers with is ordered newest first:
    every entry was created no earlier than every entry after it. *)
Theorem history_is_newest_first
    (st : Store) (user : Decoded) (entries : list History) :
  resp (history st user true) = okJson (BHistory entries) ->
  StronglySorted newerFirst entries.
Proof.
  rewrite history_entries. intros [= <-]. apply sortDesc_sorted.
Qed.

(** *** The summary route *)

(** X12. [/api/summarize] does not look at the parsed output: any two
    parsed values lead to the same store, status and calls; with a
    non-empty document name and a working store the entry is written
    with score "-", details "Summarized" and verdict "Done", and the
    parsed value is answered back as it is. *)
Theorem summary_ignores_the_output
    (st : Store) (user : Decoded) (file : option File) (v1 v2 : jsval)
    (createOk : bool) (writeAt : Z) :
  store (summarize st user file (Parsed v1) createOk writeAt)
    = store (summarize st user file (Parsed v2) createOk writeAt) /\
  status (resp (summarize st user file (Parsed v1) createOk writeAt))
    = status (resp (summarize st user file (Parsed v2) createOk writeAt)) /\
  effects (summarize st user file (Parsed v1) createOk writeAt)
    = effects (summarize st user file (Parsed v2) createOk writeAt) /\
  (createOk = true -> nameOr file "Document" <> "" ->
   summarize st user file (Parsed v1) createOk writeAt =
     {| resp := okJson (BJson v1);
        store := appendHistory st
                   {| hist_userId := dec_id user;
                      hist_type := "AI Summary";
                      hist_docs := nameOr file "Document";
                      hist_score := "-";
                      hist_details := "Summarized";
                      hist_verdict := "Done";
                      hist_createdAt := writeAt |};
        effects := [ModelCall (fileParts file ++ [TextPart SummaryPrompt])%list
                              false;
                    StoreCall "History.create"] |}).
Proof.
  unfold summarize, createHistory.
  destruct (validHistory (summaryDoc user file writeAt) && createOk) eqn:Hv;
    cbn [store resp status effects okJson errorJson].
  - repeat split; try reflexivity.
  - repeat split; try reflexivity.
    intros -> Hname. exfalso.
    unfold validHistory, summaryDoc in Hv.
    cbn [hist_type hist_docs hist_score] in Hv.
    rewrite (proj2 (truthyStr_Some _) Hname) in Hv. discriminate Hv.
Qed.

(** *** Edge cases of the analysis routes *)

Lemma docNames_nonempty a b : truthyStr (Some (a ++ " -> " ++ b)) = true.
Proof. destruct a; reflexivity. Qed.

(** X13. When the parsed output of [/api/analyze] has no
    [similarity_score], or has it [null], or is itself [null], the
    route answers its generic 500 after the model was called, and
    writes nothing. *)
Theorem analyze_without_score_fails
    (st : Store) (user : Decoded) (fs : AnalyzeFiles)
    (refText tgtText : option string) (analysis : jsval)
    (createOk : bool) (writeAt : Z) :
  getProp analysis "similarity_score" = Normal JUndefined \/
  getProp analysis "similarity_score" = Normal JNull \/
  getProp analysis "similarity_score" = Throw ->
  let o := analyze st user (Some fs) refText tgtText (Parsed analysis)
                   createOk writeAt in
  resp o = errorJson 500 "Similarity analysis failed" /\
  store o = st /\
  exists parts, effects o = [ModelCall parts false].
Proof.
  intros Hsim o. subst o. unfold analyze.
  assert (Hdoc : similarityDoc user fs analysis writeAt = Throw).
  { unfold similarityDoc. destruct Hsim as [-> | [-> | ->]]; reflexivity. }
  rewrite Hdoc. unfold failed; cbn. eauto.
Qed.

(** X14. Missing language fields do not stop [/api/analyze]: with a
    number as score and no [ref_lang] and [tgt_lang] in the parsed
    output, the entry is written, with the details
    "undefined ↔ undefined". *)
Theorem missing_languages_are_recorded
    (st : Store) (user : Decoded) (fs : AnalyzeFiles)
    (refText tgtText : option string) (analysis : jsval) (q : Q)
    (writeAt : Z) :
  getProp analysis "similarity_score" = Normal (JNum q) ->
  getProp analysis "ref_lang" = Normal JUndefined ->
  getProp analysis "tgt_lang" = Normal JUndefined ->
  NumberToString q <> "" ->
  let o := analyze st user (Some fs) refText tgtText (Parsed analysis)
                   true writeAt in
  status (resp o) = 200 /\
  exists h, store o = appendHistory st h /\
            hist_details h = "undefined ↔ undefined" /\
            hist_score h = NumberToString q.
Proof.
  intros Hsim Href Htgt Hprint o. subst o. unfold analyze, similarityDoc.
  rewrite Hsim, Href, Htgt. cbn [bindc toStringMethod templateString].
  rewrite !geNumber_num. cbn [bindc].
  assert (Hmk : forall verdict,
    createHistory st
      {| hist_userId := dec_id user; hist_type := "Similarity Check";
         hist_docs := nameOr (refFile fs) "Text" ++ " -> "
                      ++ nameOr (tgtFile fs) "Text";
         hist_score := NumberToString q;
         hist_details := "undefined" ++ " ↔ " ++ "undefined";
         hist_verdict := verdict; hist_createdAt := writeAt |}
      true "Similarity analysis failed" (BJson analysis)
      [ModelCall
         (fileParts (refFile fs) ++ fileParts (tgtFile fs)
          ++ [TextPart (SimilarityPrompt
                          (orElse refText "See attached reference file")
                          (orElse tgtText "See attached target file"))])%list
         false]
    = {| resp := okJson (BJson analysis);
         store := appendHistory st
           {| hist_userId := dec_id user; hist_type := "Similarity Check";
              hist_docs := nameOr (refFile fs) "Text" ++ " -> "
                           ++ nameOr (tgtFile fs) "Text";
              hist_score := NumberToString q;
              hist_details := "undefined" ++ " ↔ " ++ "undefined";
              hist_verdict := verdict; hist_createdAt := writeAt |};
         effects :=
           ([ModelCall
               (fileParts (refFile fs) ++ fileParts (tgtFile fs)
                ++ [TextPart (SimilarityPrompt
                                (orElse refText "See attached reference file")
                                (orElse tgtText "See attached target file"))])%list
               false] ++ [StoreCall "History.create"])%list |}).
  { intros verdict. unfold createHistory, validHistory.
    cbn [hist_type hist_docs hist_score].
    now rewrite docNames_nonempty, (proj2 (truthyStr_Some _) Hprint). }
  destruct (Qle_bool 80 q); cbn [bindc];
    [|destruct (Qle_bool 50 q)]; rewrite Hmk; cbn [resp store status okJson];
    (split; [reflexivity|]); eexists; (split; [reflexivity|]);
    split; reflexivity.
Qed.

(** X15. When the parsed output of [/api/webscan] has no [sources], or
    has it [null], or is itself [null], the route answers its generic
    500 after the model was called with search grounding, and writes
    nothing. *)
Theorem webscan_without_sources_fails
    (st : Store) (user : Decoded) (file : option File) (scanResult : jsval)
    (createOk : bool) (writeAt : Z) :
  getProp scanResult "sources" = Normal JUndefined \/
  getProp scanResult "sources" = Normal JNull \/
  getProp scanResult "sources" = Throw ->
  let o := webscan st user file (Parsed scanResult) createOk writeAt in
  resp o = errorJson 500 "Web scan failed" /\
  store o = st /\
  exists parts, effects o = [ModelCall parts true].
Proof.
  intros Hsrc o. subst o. unfold webscan.
  assert (Hdoc : webScanDoc user file scanResult writeAt = Throw).
  { unfold webScanDoc. destruct Hsrc as [-> | [-> | ->]]; reflexivity. }
  rewrite Hdoc. unfold failed; cbn. eauto.
Qed.

(** *** The bearer header *)

Lemma replaceFirst_absent p r s :
  contains p s = false -> replaceFirst p r s = s.
Proof.
  induction s as [|c s IH]; rewrite replaceFirst_unfold; cbn [contains].
  - now destruct (dropPrefix p "").
  - destruct (dropPrefix p (String c s)); [discriminate|].
    intros H. now rewrite (IH H).
Qed.

(** X16. The "Bearer " prefix is optional: a header that is the bare
    token, when "Bearer " does not occur in it, is treated by
    [authMiddleware] exactly as the header with the prefix. *)
Theorem bearer_prefix_is_optional (env : Env) (now : Z) (token : string) :
  contains "Bearer " token = false ->
  authMiddleware env now (Some token)
    = authMiddleware env now (Some ("Bearer " ++ token)).
Proof.
  intros Habs. unfold authMiddleware.
  rewrite bearerToken_bearer. unfold bearerToken, option_map.
  now rewrite (replaceFirst_absent _ _ _ Habs).
Qed.

(** *** How the routes compose *)

(** X17. With the signing secret configured, the token of a login opens
    the four protected routes until it expires: a request that presents
    it runs the route's handler for the identity that logged in, its
    [_id] and phone taken from the token. *)
Theorem login_opens_protected_routes
    (env : Env) (st : Store) (phone : option string) (otp : jsval)
    (t1 signAt : Z) (findOk saveOk : bool) (s : string) :
  JwtContract ->
  JWT_SECRET env = Some s -> s <> "" ->
  let login := verify_otp env t1 st phone otp findOk saveOk signAt in
  status (resp login) = 200 ->
  exists ph u token,
    phone = Some ph /\ users st !! ph = Some u /\
    resp login = okJson (BLogin "Login successful" token) /\
    forall now st' r,
      now / 1000 < signAt / 1000 + sevenDays ->
      authorizationOf r = Some ("Bearer " ++ token) ->
      let identity := {| dec_id := user_id u; dec_phone := ph;
                         dec_iat := signAt / 1000;
                         dec_exp := signAt / 1000 + sevenDays |} in
      handle env now st' r =
        match r with
        | Analyze _ files refText tgtText reply createOk writeAt =>
            analyze st' identity files refText tgtText reply createOk writeAt
        | WebScan _ file reply createOk writeAt =>
            webscan st' identity file reply createOk writeAt
        | Summarize _ file reply createOk writeAt =>
            summarize st' identity file reply createOk writeAt
        | GetHistory _ ok => history st' identity ok
        | SendOtp _ _ _ | VerifyOtp _ _ _ _ _ => handle env now st' r
        end.
Proof.
  intros K Hs Hne login Hok.
  destruct (verify_otp_success _ _ _ _ _ _ _ _ Hok)
    as (ph & u & -> & Hu & _ & _ & _ & _ & Hlogin).
  subst login. rewrite Hlogin. cbn [resp].
  rewrite Hs, (orElse_truthy s _ Hne).
  eexists ph, u, _. split; [reflexivity|]. split; [exact Hu|].
  split; [reflexivity|].
  intros now st' r Hlt Hhdr. cbn zeta.
  assert (Hauth : authMiddleware env now (authorizationOf r)
                  = Next {| dec_id := user_id u; dec_phone := ph;
                            dec_iat := signAt / 1000;
                            dec_exp := signAt / 1000 + sevenDays |}).
  { rewrite Hhdr, (signed_token_accepted env now _ s signAt K Hs Hne).
    apply Z.ltb_lt in Hlt. now rewrite Hlt. }
  destruct r; cbn [handle authorizationOf] in *; try reflexivity;
    unfold withAuth; now rewrite Hauth.
Qed.

Lemma listed_when_owned st user h :
  In h (histories st) -> hist_userId h = dec_id user ->
  exists entries,
    resp (history st user true) = okJson (BHistory entries) /\ In h entries.
Proof.
  intros Hin Hown. eexists. split; [apply history_entries|].
  apply In_own_entries. now split.
Qed.

(** X18. An entry an analysis route appended for an identity is in the
    list [/api/history] then answers that identity with. *)
Theorem recorded_analysis_is_listed
    (st : Store) (user : Decoded) (reply : ModelReply) (createOk : bool)
    (writeAt : Z) (h : History) :
  (forall files refText tgtText,
     let o := analyze st user files refText tgtText reply createOk writeAt in
     histories (store o) = (histories st ++ [h])%list ->
     exists entries,
       resp (history (store o) user true) = okJson (BHistory entries)
       /\ In h entries) /\
  (forall file,
     let o := webscan st user file reply createOk writeAt in
     histories (store o) = (histories st ++ [h])%list ->
     exists entries,
       resp (history (store o) user true) = okJson (BHistory entries)
       /\ In h entries) /\
  (forall file,
     let o := summarize st user file reply createOk writeAt in
     histories (store o) = (histories st ++ [h])%list ->
     exists entries,
       resp (history (store o) user true) = okJson (BHistory entries)
       /\ In h entries).
Proof.
  split; [|split].
  - intros files refText tgtText o Happ. subst o.
    apply listed_when_owned;
      [rewrite Happ; apply in_or_app; right; now left|].
    destruct (analyze_appended _ _ _ _ _ _ _ _ _ Happ)
      as (fs & v & _ & _ & Hdoc).
    eapply similarityDoc_owner, Hdoc.
  - intros file o Happ. subst o.
    apply listed_when_owned;
      [rewrite Happ; apply in_or_app; right; now left|].
    destruct (webscan_appended _ _ _ _ _ _ _ Happ) as (v & _ & Hdoc).
    eapply webScanDoc_owner, Hdoc.
  - intros file o Happ. subst o.
    apply listed_when_owned;
      [rewrite Happ; apply in_or_app; right; now left|].
    now rewrite (summarize_appended _ _ _ _ _ _ _ Happ).
Qed.

(** *** Calls to the model *)








(** *** More edge cases and separations *)

(** X20. Verifying for a phone that has no document, or without a
    phone, answers 404 "User not found" whatever code is sent, and
    changes nothing. *)
Theorem unknown_phone_is_not_found
    (env : Env) (now : Z) (st : Store) (phone : option string) (otp : jsval)
    (saveOk : bool) (signAt : Z) :
  phone = None \/ (exists ph, phone = Some ph /\ users st !! ph = None) ->
  verify_otp env now st phone otp true saveOk signAt =
    {| resp := errorJson 404 "User not found";
       store := st; effects := [StoreCall "User.findOne"] |}.
Proof.
  intros [-> | (ph & -> & Hnone)]; unfold verify_otp; cbn;
    [reflexivity | now rewrite Hnone].
Qed.

(** X21. [/api/auth/send-otp] without a phone, or with the empty
    string, answers 400 without calling the store; whenever its answer
    is not 200 the store is as before; its status is 200, 400 or 500. *)
Theorem send_otp_fails_without_writing
    (now : Z) (st : Store) (phone : option string) (rnd : Q)
    (upsertOk : bool) :
  let o := send_otp now st phone rnd upsertOk in
  (phone = None \/ phone = Some "" ->
     o = {| resp := errorJson 400 "Phone number is required";
            store := st; effects := [] |}) /\
  (status (resp o) <> 200 -> store o = st) /\
  (status (resp o) = 200 \/ status (resp o) = 400 \/ status (resp o) = 500).
Proof.
  cbn zeta. unfold send_otp. split; [|split].
  - intros [-> | ->]; reflexivity.
  - destruct (negb (truthyStr phone)); [reflexivity|].
    destruct upsertOk; cbn; [intros H; now contradiction H | reflexivity].
  - destruct (negb (truthyStr phone)); [cbn; auto|].
    destruct upsertOk; cbn; auto.
Qed.

(** X22. Only the first source of a web scan counts: two parsed outputs
    whose [sources] start with the same source lead to the same score
    and verdict, whatever follows it. *)
Theorem only_the_first_source_counts
    (user : Decoded) (file : option File) (scan1 scan2 first : jsval)
    (rest1 rest2 : list jsval) (writeAt : Z) (h1 h2 : History) :
  getProp scan1 "sources" = Normal (JArr (first :: rest1)) ->
  getProp scan2 "sources" = Normal (JArr (first :: rest2)) ->
  webScanDoc user file scan1 writeAt = Normal h1 ->
  webScanDoc user file scan2 writeAt = Normal h2 ->
  hist_score h1 = hist_score h2 /\ hist_verdict h1 = hist_verdict h2.
Proof.
  intros H1 H2.
  rewrite (webScanDoc_array user file _ writeAt _ H1),
          (webScanDoc_array user file _ writeAt _ H2).
  cbn zeta.
  destruct (toStringOpt (getPropOpt first "score")); cbn [bindc];
    [|discriminate].
  destruct (geNumber (getPropOpt first "score") 80); cbn [bindc];
    [|discriminate].
  intros [= <-] [= <-]. split; reflexivity.
Qed.

(** X23. Only a login hands out a token: a response carries one only
    when the request is a verification answered with 200. *)
Theorem only_a_login_issues_a_token
    (env : Env) (now : Z) (st : Store) (r : Request) (token : string) :
  In token (issuedBy (handle env now st r)) ->
  status (resp (handle env now st r)) = 200 /\
  exists phone otp findOk saveOk signAt,
    r = VerifyOtp phone otp findOk saveOk signAt.
Proof.
  assert (Hprot : forall a handler,
    (forall user, ownedWrite st user (handler user)) ->
    In token (issuedBy (withAuth env now a st handler)) -> False).
  { intros a handler Hh.
    destruct (withAuth_owned env now a st handler Hh) as (_ & -> & _).
    intros []. }
  destruct r; cbn [handle].
  - destruct (send_otp_facts now st phone rnd upsertOk) as (_ & -> & _).
    intros [].
  - intros Hin. split; [|eauto 6].
    destruct (Z.eq_dec
      (status (resp (verify_otp env now st phone otp findOk saveOk signAt)))
      200) as [Hok|Hno]; [exact Hok|].
    rewrite (verify_otp_no_token _ _ _ _ _ _ _ _ Hno) in Hin. destruct Hin.
  - intros H. destruct (Hprot _ _ (fun user => analyze_owned _ user _ _ _ _ _ _) H).
  - intros H. destruct (Hprot _ _ (fun user => webscan_owned _ user _ _ _ _) H).
  - intros H. destruct (Hprot _ _ (fun user => summarize_owned _ user _ _ _ _) H).
  - intros H. destruct (Hprot _ _ (fun user => history_owned _ user _) H).
Qed.

(** X24. The two groups of routes keep to their collection: a route
    behind [authMiddleware] never changes the [User] collection, and
    the two OTP routes never change the history. *)
Theorem routes_keep_to_their_collection
    (env : Env) (now : Z) (st : Store) (r : Request) :
  (protectedRoute r = true ->
     users (store (handle env now st r)) = users st) /\
  (protectedRoute r = false ->
     histories (store (handle env now st r)) = histories st).
Proof.
  split; intros Hp; destruct r; try discriminate Hp; cbn [handle].
  - apply withAuth_owned. intros user. apply analyze_owned.
  - apply withAuth_owned. intros user. apply webscan_owned.
  - apply withAuth_owned. intros user. apply summarize_owned.
  - apply withAuth_owned. intros user. apply history_owned.
  - apply send_otp_facts.
  - apply verify_otp_facts.
Qed.

End Server.

(** ** The sample runtime meets the token contract *)

Lemma ofBits_bitsOf p : ofBits (bitsOf p) = Some p.
Proof. induction p as [p IH|p IH|]; cbn; [now rewrite IH..|reflexivity]. Qed.

Lemma sample_contract : JwtContract sample_sign sample_verify.
Proof.
  split.
  - intros c s e t. discriminate.
  - intros c s t now Hne. unfold sample_verify, sample_sign.
    rewrite ofBits_bitsOf. cbn [mbind option_bind]. rewrite decode_encode.
    rewrite (proj2 (truthyStr_Some s) Hne), bool_decide_eq_true_2 by reflexivity.
    cbn [andb]. change (sample_span "7d") with sevenDays.
    now destruct c.
  - intros c s e t secret now Hsec. unfold sample_verify, sample_sign.
    rewrite ofBits_bitsOf. cbn [mbind option_bind]. rewrite decode_encode.
    now rewrite Hsec.
Qed.

(** ** Concrete runs

    The routes over the sample runtime, on the requests of [sample_trace]. *)

Local Abbreviation send_otp' := (send_otp sample_NumberToString).
Local Abbreviation verify_otp' := (verify_otp sample_sign).
Local Abbreviation authMiddleware' := (authMiddleware sample_verify).
Local Abbreviation analyze' :=
  (analyze sample_NumberToString sample_StringToNumber sample_ObjectToString).
Local Abbreviation webscan' :=
  (webscan sample_NumberToString sample_StringToNumber sample_ObjectToString).
Local Abbreviation handle' :=
  (handle sample_NumberToString sample_StringToNumber sample_ObjectToString
          sample_sign sample_verify).
Local Abbreviation run' :=
  (run sample_NumberToString sample_StringToNumber sample_ObjectToString
       sample_sign sample_verify).
Local Abbreviation requested' :=
  (store (send_otp' 1700000000000 emptyStore (Some "+15551234") (1 # 2) true)).

(** C1 at a concrete request: the code "550000" logs in one second
    after it was issued and is refused one second later. *)
Lemma challenge_consumed_once_witness :
  "+15551234" <> "" /\ 1700000001000 <= 1700000000000 + 600000 /\
  (exists token,
     resp (verify_otp' sample_env 1700000001000 requested' (Some "+15551234")
                       (JStr "550000") true true 1700000060000)
       = okJson (BLogin "Login successful" token)) /\
  resp (verify_otp' sample_env 1700000002000
          (store (verify_otp' sample_env 1700000001000 requested' (Some "+15551234")
                              (JStr "550000") true true 1700000060000))
          (Some "+15551234") (JStr "550000") true true 1700000070000)
    = errorJson 400 "Invalid OTP".
Proof.
  assert (H1 : "+15551234" <> "") by discriminate.
  assert (H2 : 1700000001000 <= 1700000000000 + 600000) by lia.
  destruct (challenge_consumed_once sample_NumberToString sample_sign
              sample_env emptyStore "+15551234" (1 # 2) 1700000000000 1700000001000 1700000060000 H1 H2)
    as (_ & Hfirst & _ & Hsecond).
  split; [exact H1|]. split; [exact H2|]. split; [exact Hfirst|].
  exact (proj2 (proj2 (Hsecond 1700000002000 true true 1700000070000)) eq_refl).
Defined.

(** C2 as the spec states it fails: the challenge issued at
    1700000000000 ms expires at 1700000600000 ms, and at exactly
    1700000600000 ms the matching code is not refused as expired: it
    logs in. *)
Lemma expiry_instant_still_verifies :
  (exists u, users requested' !! "+15551234" = Some u
             /\ user_otp u = Some "550000"
             /\ user_otpExpires u = Some 1700000600000) /\
  1700000600000 >= 1700000600000 /\
  resp (verify_otp' sample_env 1700000600000 requested' (Some "+15551234")
                    (JStr "550000") true true 1700000600000)
    <> errorJson 400 "OTP expired" /\
  status (resp (verify_otp' sample_env 1700000600000 requested' (Some "+15551234")
                            (JStr "550000") true true 1700000600000)) = 200.
Proof.
  split; [eexists; vm_compute; repeat split; reflexivity|].
  split; [lia|]. split; [vm_compute; discriminate | vm_compute; reflexivity].
Qed.

(** C2 as amended, at the same challenge: refused one millisecond after
    the expiry, accepted at the expiry. *)
Lemma expired_iff_strictly_past_witness :
  users requested' !! "+15551234"
    = Some {| user_id := 0%N; user_otp := Some "550000";
              user_otpExpires := Some 1700000600000; user_createdAt := 1700000000000 |} /\
  resp (verify_otp' sample_env 1700000600001 requested' (Some "+15551234")
                    (JStr "550000") true true 1700000600001)
    = errorJson 400 "OTP expired" /\
  status (resp (verify_otp' sample_env 1700000600000 requested' (Some "+15551234")
                            (JStr "550000") true true 1700000600000)) = 200.
Proof.
  assert (Hu : users requested' !! "+15551234"
               = Some {| user_id := 0%N; user_otp := Some "550000";
                         user_otpExpires := Some 1700000600000; user_createdAt := 1700000000000 |})
    by (vm_compute; reflexivity).
  split; [exact Hu|]. split.
  - apply (proj1 (expired_iff_strictly_past sample_sign sample_env requested'
             "+15551234" "550000" _ 1700000600000 1700000600001 1700000600001 true
             Hu eq_refl eq_refl)).
    lia.
  - apply (proj2 (expired_iff_strictly_past sample_sign sample_env requested'
             "+15551234" "550000" _ 1700000600000 1700000600000 1700000600000 true
             Hu eq_refl eq_refl)); [lia | reflexivity].
Defined.

(** C9 at the consumed challenge: one second after the login, a [null]
    code is refused as expired and the old code as invalid. *)
Lemma consumed_challenge_never_reissues_witness :
  status (resp (verify_otp' sample_env 1700000001000 requested' (Some "+15551234")
                            (JStr "550000") true true 1700000060000)) = 200 /\
  0 < 1700000002000 /\
  resp (verify_otp' sample_env 1700000002000
          (store (verify_otp' sample_env 1700000001000 requested' (Some "+15551234")
                              (JStr "550000") true true 1700000060000))
          (Some "+15551234") JNull true true 1700000070000)
    = errorJson 400 "OTP expired" /\
  resp (verify_otp' sample_env 1700000002000
          (store (verify_otp' sample_env 1700000001000 requested' (Some "+15551234")
                              (JStr "550000") true true 1700000060000))
          (Some "+15551234") (JStr "550000") true true 1700000070000)
    = errorJson 400 "Invalid OTP".
Proof.
  assert (Hok : status (resp (verify_otp' sample_env 1700000001000 requested'
                  (Some "+15551234") (JStr "550000") true true 1700000060000)) = 200)
    by (vm_compute; reflexivity).
  assert (Hnow : 0 < 1700000002000) by lia.
  split; [exact Hok|]. split; [exact Hnow|]. split.
  - destruct (consumed_challenge_never_reissues sample_sign sample_env
                requested' (Some "+15551234") (JStr "550000") 1700000001000 1700000060000
                true true Hok 1700000002000 JNull true true 1700000070000 Hnow)
      as (_ & _ & Hnull & _).
    exact (proj2 (proj2 (Hnull eq_refl eq_refl))).
  - destruct (consumed_challenge_never_reissues sample_sign sample_env
                requested' (Some "+15551234") (JStr "550000") 1700000001000 1700000060000
                true true Hok 1700000002000 (JStr "550000") true true 1700000070000 Hnow)
      as (_ & _ & _ & Hother).
    apply Hother; [reflexivity | discriminate].
Defined.

Local Abbreviation login' :=
  (verify_otp' sample_env 1700000001000 requested' (Some "+15551234")
               (JStr "550000") true true 1700000060000).

Lemma login_ok : status (resp login') = 200.
Proof. vm_compute. reflexivity. Qed.

(** C4 at the sample login: signed in second 1700000060, the token
    expires at second 1700604860; it is accepted one millisecond before
    and rejected at that second. *)
Lemma session_token_lifetime_witness :
  JWT_SECRET sample_env = Some "s3cret" /\ "s3cret" <> "" /\
  status (resp login') = 200 /\
  exists token,
    resp login' = okJson (BLogin "Login successful" token) /\
    authMiddleware' sample_env 1700604859999 (Some ("Bearer " ++ token))
      = Next {| dec_id := 0%N; dec_phone := "+15551234";
                dec_iat := 1700000060; dec_exp := 1700604860 |} /\
    authMiddleware' sample_env 1700604860000 (Some ("Bearer " ++ token))
      = Reject (errorJson 400 "Invalid token.").
Proof.
  assert (Hne : "s3cret" <> "") by discriminate.
  split; [reflexivity|]. split; [exact Hne|]. split; [exact login_ok|].
  destruct (session_token_lifetime sample_sign sample_verify sample_env
              requested' (Some "+15551234") (JStr "550000") 1700000001000 1700000060000
              true true "s3cret" sample_contract eq_refl Hne login_ok)
    as (ph & u & token & Hph & Hu & Hresp & _ & _ & Hauth).
  injection Hph as <-.
  assert (Hu0 : users requested' !! "+15551234"
                = Some {| user_id := 0%N; user_otp := Some "550000";
                          user_otpExpires := Some 1700000600000;
                          user_createdAt := 1700000000000 |})
    by (vm_compute; reflexivity).
  rewrite Hu0 in Hu. injection Hu as <-.
  exists token. split; [exact Hresp|]. split.
  - apply (proj1 (Hauth 1700604859999)). vm_compute. reflexivity.
  - apply (proj2 (Hauth 1700604860000)). vm_compute. discriminate.
Defined.

(** C10 with [JWT_SECRET] unset: the login still answers with a token,
    and [authMiddleware] rejects it. *)
Lemma signing_verification_asymmetry_witness :
  status (resp (verify_otp' {| JWT_SECRET := None |} 1700000001000 requested'
                            (Some "+15551234") (JStr "550000")
                            true true 1700000060000)) = 200 /\
  exists token,
    resp (verify_otp' {| JWT_SECRET := None |} 1700000001000 requested'
                      (Some "+15551234") (JStr "550000") true true 1700000060000)
      = okJson (BLogin "Login successful" token) /\
    token = sample_sign sample_claims "fallback_secret_key" "7d" 1700000060000 /\
    authMiddleware' {| JWT_SECRET := None |} 1700000120000
                    (Some ("Bearer " ++ token))
      = Reject (errorJson 400 "Invalid token.").
Proof.
  assert (Hok : status (resp (verify_otp' {| JWT_SECRET := None |} 1700000001000
                  requested' (Some "+15551234") (JStr "550000")
                  true true 1700000060000)) = 200)
    by (vm_compute; reflexivity).
  split; [exact Hok|].
  destruct (signing_verification_asymmetry sample_sign sample_verify
              {| JWT_SECRET := None |} requested' (Some "+15551234")
              (JStr "550000") 1700000001000 1700000060000 true true sample_contract Hok)
    as (ph & u & token & Hph & Hu & Hresp & Htok & _ & Hunset).
  injection Hph as <-.
  assert (Hu0 : users requested' !! "+15551234"
                = Some {| user_id := 0%N; user_otp := Some "550000";
                          user_otpExpires := Some 1700000600000;
                          user_createdAt := 1700000000000 |})
    by (vm_compute; reflexivity).
  rewrite Hu0 in Hu. injection Hu as <-.
  exists token. split; [exact Hresp|]. split; [exact Htok|].
  apply (proj2 (Hunset eq_refl) 1700000120000). apply bearerToken_bearer.
Defined.

(** C5 at two requests to [/api/analyze]: without a header, and with a
    token [jwt.verify] refuses. *)
Lemma auth_precedes_work_witness :
  handle' sample_env 1700000120000 requested'
    (Analyze None (Some no_files) None None
             (Parsed (sample_analysis 80)) true 1700000125000)
    = {| resp := errorJson 401 "Access denied. No token provided.";
         store := requested'; effects := [] |} /\
  handle' sample_env 1700000120000 requested'
    (Analyze (Some "Bearer not-a-token") (Some no_files) None None
             (Parsed (sample_analysis 80)) true 1700000125000)
    = {| resp := errorJson 400 "Invalid token.";
         store := requested'; effects := [] |}.
Proof.
  split.
  - apply (proj1 (auth_precedes_work sample_NumberToString
             sample_StringToNumber sample_ObjectToString sample_sign
             sample_verify sample_env 1700000120000 requested'
             (Analyze None (Some no_files) None None
                      (Parsed (sample_analysis 80)) true 1700000125000) eq_refl)).
    reflexivity.
  - apply (proj2 (auth_precedes_work sample_NumberToString
             sample_StringToNumber sample_ObjectToString sample_sign
             sample_verify sample_env 1700000120000 requested'
             (Analyze (Some "Bearer not-a-token") (Some no_files) None None
                      (Parsed (sample_analysis 80)) true 1700000125000) eq_refl)
             "not-a-token").
    + reflexivity.
    + discriminate.
    + vm_compute. reflexivity.
Defined.

Local Abbreviation similarity' score verdict :=
  {| hist_userId := 0%N; hist_type := "Similarity Check";
     hist_docs := "Text -> Text"; hist_score := score;
     hist_details := "en ↔ fr"; hist_verdict := verdict;
     hist_createdAt := 1700000125000 |}.

Local Abbreviation scan' score details verdict :=
  {| hist_userId := 0%N; hist_type := "Web Scan";
     hist_docs := "Document"; hist_score := score;
     hist_details := details; hist_verdict := verdict;
     hist_createdAt := 1700000125000 |}.

(** C3 at a failing model call and at non-JSON text: the generic 500,
    and the store as it was. *)
Lemma write_after_validate_witness :
  (resp (analyze' requested' sample_user (Some no_files) None None
                  GenerateFails true 1700000125000)
     = errorJson 500 "Similarity analysis failed" /\
   store (analyze' requested' sample_user (Some no_files) None None
                   GenerateFails true 1700000125000) = requested') /\
  (resp (webscan' requested' sample_user None (NotJson "<html>") true 1700000125000)
     = errorJson 500 "Web scan failed" /\
   store (webscan' requested' sample_user None (NotJson "<html>") true 1700000125000)
     = requested').
Proof.
  split.
  - destruct (write_after_validate sample_NumberToString sample_StringToNumber
                sample_ObjectToString requested' sample_user GenerateFails
                true 1700000125000) as (Han & _ & _).
    destruct (proj1 (Han (Some no_files) None None) eq_refl) as (Hr & Hs & _).
    split; [exact Hr | exact Hs].
  - destruct (write_after_validate sample_NumberToString sample_StringToNumber
                sample_ObjectToString requested' sample_user (NotJson "<html>")
                true 1700000125000) as (_ & Hweb & _).
    destruct (proj1 (Hweb None) eq_refl) as (Hr & Hs & _).
    split; [exact Hr | exact Hs].
Defined.

(** C6 at the two boundary scores: 80 is recorded "High", 50 "Moderate". *)
Lemma similarity_verdict_thresholds_witness :
  (histories (store (analyze' requested' sample_user (Some no_files) None None
                              (Parsed (sample_analysis 80)) true 1700000125000))
     = (histories requested' ++ [similarity' "80" "High"])%list /\
   hist_verdict (similarity' "80" "High") = "High") /\
  (histories (store (analyze' requested' sample_user (Some no_files) None None
                              (Parsed (sample_analysis 50)) true 1700000125000))
     = (histories requested' ++ [similarity' "50" "Moderate"])%list /\
   hist_verdict (similarity' "50" "Moderate") = "Moderate").
Proof.
  assert (H80 : histories (store (analyze' requested' sample_user
                  (Some no_files) None None (Parsed (sample_analysis 80))
                  true 1700000125000))
                = (histories requested' ++ [similarity' "80" "High"])%list)
    by (vm_compute; reflexivity).
  assert (H50 : histories (store (analyze' requested' sample_user
                  (Some no_files) None None (Parsed (sample_analysis 50))
                  true 1700000125000))
                = (histories requested' ++ [similarity' "50" "Moderate"])%list)
    by (vm_compute; reflexivity).
  split.
  - split; [exact H80|].
    destruct (similarity_verdict_thresholds sample_NumberToString
                sample_StringToNumber sample_ObjectToString requested'
                sample_user (Some no_files) None None (sample_analysis 80)
                (JNum 80) true 1700000125000 _ eq_refl H80)
      as (n & _ & _ & _ & _ & Hnum).
    apply (proj2 (proj1 (Hnum 80%Q eq_refl))). discriminate.
  - split; [exact H50|].
    destruct (similarity_verdict_thresholds sample_NumberToString
                sample_StringToNumber sample_ObjectToString requested'
                sample_user (Some no_files) None None (sample_analysis 50)
                (JNum 50) true 1700000125000 _ eq_refl H50)
      as (n & _ & _ & _ & _ & Hnum).
    apply (proj2 (proj1 (proj2 (Hnum 50%Q eq_refl)))).
    split; [discriminate | reflexivity].
Defined.

(** C7 at [sources = []] and at a first source of score 90. *)
Lemma webscan_defaults_and_verdict_witness :
  (forall h,
     histories (store (webscan' requested' sample_user None
                                (Parsed (sample_scan [])) true 1700000125000))
       = (histories requested' ++ [h])%list ->
     hist_score h = "0" /\ hist_verdict h = "Pass") /\
  histories (store (webscan' requested' sample_user None
                             (Parsed (sample_scan [])) true 1700000125000))
    = (histories requested' ++ [scan' "0" "0 sources found" "Pass"])%list /\
  histories (store (webscan' requested' sample_user None
                             (Parsed (sample_scan [sample_source 90]))
                             true 1700000125000))
    = (histories requested'
       ++ [scan' "90" "1 sources found" "High Risk"])%list /\
  (80 <= 90)%Q.
Proof.
  assert (H90 : histories (store (webscan' requested' sample_user None
                  (Parsed (sample_scan [sample_source 90])) true 1700000125000))
                = (histories requested'
                   ++ [scan' "90" "1 sources found" "High Risk"])%list)
    by (vm_compute; reflexivity).
  split; [|split; [vm_compute; reflexivity | split; [exact H90|]]].
  - exact (proj2 (proj1 (webscan_defaults_and_verdict sample_NumberToString
             sample_StringToNumber sample_ObjectToString requested'
             sample_user None (sample_scan []) true 1700000125000) eq_refl)).
  - destruct (proj2 (webscan_defaults_and_verdict sample_NumberToString
                sample_StringToNumber sample_ObjectToString requested'
                sample_user None (sample_scan [sample_source 90]) true 1700000125000)
                (sample_source 90) [] _ eq_refl H90)
      as (n & printed & _ & _ & _ & _ & _ & Hnum & _).
    exact (proj1 (proj1 (Hnum 90%Q eq_refl)) eq_refl).
Defined.

(** C8 on [sample_trace]: the store it leads to is reachable, holds one
    history entry, and the owner of that entry is in the store. *)
Lemma history_owner_exists_witness :
  reachable sample_NumberToString sample_StringToNumber sample_ObjectToString
            sample_sign sample_verify sample_env
            (run' sample_env emptyStore [] sample_trace).1
            (run' sample_env emptyStore [] sample_trace).2 /\
  histories (run' sample_env emptyStore [] sample_trace).1
    = [similarity' "80" "High"] /\
  identityExists (run' sample_env emptyStore [] sample_trace).1 0%N.
Proof.
  assert (Hreach : reachable sample_NumberToString sample_StringToNumber
            sample_ObjectToString sample_sign sample_verify sample_env
            (run' sample_env emptyStore [] sample_trace).1
            (run' sample_env emptyStore [] sample_trace).2).
  { apply run_reachable; [apply reach_empty|].
    unfold sample_trace. cbn [unforgedTrace].
    split; [apply unforged_no_header; reflexivity|].
    split; [apply unforged_no_header; reflexivity|].
    split; [|exact I].
    apply (unforged_bearer _ _ _ _ _ sample_token); [reflexivity|].
    vm_compute. left. reflexivity. }
  assert (Hhist : histories (run' sample_env emptyStore [] sample_trace).1
                  = [similarity' "80" "High"])
    by (vm_compute; reflexivity).
  split; [exact Hreach|]. split; [exact Hhist|].
  apply (proj1 (history_owner_exists sample_NumberToString
           sample_StringToNumber sample_ObjectToString sample_sign
           sample_verify sample_env _ _ sample_contract Hreach)
           (similarity' "80" "High")).
  rewrite Hhist. left. reflexivity.
Defined.

(** ** Concrete runs of the further properties *)

Lemma sample_trace_reachable :
  reachable sample_NumberToString sample_StringToNumber sample_ObjectToString
            sample_sign sample_verify sample_env
            (run' sample_env emptyStore [] sample_trace).1
            (run' sample_env emptyStore [] sample_trace).2.
Proof.
  apply run_reachable; [apply reach_empty|].
  unfold sample_trace. cbn [unforgedTrace].
  split; [apply unforged_no_header; reflexivity|].
  split; [apply unforged_no_header; reflexivity|].
  split; [|exact I].
  apply (unforged_bearer _ _ _ _ _ sample_token); [reflexivity|].
  vm_compute. left. reflexivity.
Qed.

Lemma requested_document :
  users requested' !! "+15551234"
    = Some {| user_id := 0%N; user_otp := Some "550000";
              user_otpExpires := Some 1700000600000;
              user_createdAt := 1700000000000 |}.
Proof. vm_compute. reflexivity. Qed.

(** X1 at two draws: the code "550000" of the first request is refused
    once "325000" was issued, and "325000" logs in. *)
Lemma second_challenge_invalidates_first_witness :
  "+15551234" <> "" /\
  generateOtp sample_NumberToString (1 # 2)
    <> generateOtp sample_NumberToString (1 # 4) /\
  resp (verify_otp' sample_env 1700000031000
          (store (send_otp' 1700000030000 requested'
                            (Some "+15551234") (1 # 4) true))
          (Some "+15551234") (JStr "550000") true true 1700000031000)
    = errorJson 400 "Invalid OTP" /\
  status (resp (verify_otp' sample_env 1700000031000
                  (store (send_otp' 1700000030000 requested'
                                    (Some "+15551234") (1 # 4) true))
                  (Some "+15551234") (JStr "325000") true true
                  1700000031000)) = 200.
Proof.
  assert (H1 : "+15551234" <> "") by discriminate.
  assert (H2 : generateOtp sample_NumberToString (1 # 2)
               <> generateOtp sample_NumberToString (1 # 4))
    by (vm_compute; discriminate).
  destruct (second_challenge_invalidates_first sample_NumberToString
              sample_sign sample_env emptyStore "+15551234" (1 # 2) (1 # 4)
              1700000000000 1700000030000 1700000031000 1700000031000 true
              H1 H2) as [Hold Hnew].
  split; [exact H1|]. split; [exact H2|]. split; [exact Hold|].
  apply Hnew. lia.
Defined.


(** X5 one millisecond after the window. *)
Lemma issued_code_expires_after_ten_minutes_witness :
  "+15551234" <> "" /\ 1700000000000 + 600000 < 1700000600001 /\
  resp (verify_otp' sample_env 1700000600001 requested' (Some "+15551234")
                    (JStr "550000") true true 1700000600001)
    = errorJson 400 "OTP expired".
Proof.
  assert (H1 : "+15551234" <> "") by discriminate.
  assert (H2 : 1700000000000 + 600000 < 1700000600001) by lia.
  split; [exact H1|]. split; [exact H2|].
  exact (proj1 (issued_code_expires_after_ten_minutes sample_NumberToString
                  sample_sign sample_env emptyStore "+15551234" (1 # 2)
                  1700000000000 1700000600001 1700000600001 true H1 H2)).
Defined.

(** X6 at a wrong code: refused, and the store is as it was. *)
Lemma failed_verification_changes_nothing_witness :
  status (resp (verify_otp' sample_env 1700000001000 requested'
                  (Some "+15551234") (JStr "000000") true true
                  1700000001000)) <> 200 /\
  store (verify_otp' sample_env 1700000001000 requested'
           (Some "+15551234") (JStr "000000") true true 1700000001000)
    = requested'.
Proof.
  assert (H : status (resp (verify_otp' sample_env 1700000001000 requested'
                (Some "+15551234") (JStr "000000") true true
                1700000001000)) <> 200)
    by (vm_compute; discriminate).
  split; [exact H|].
  exact (proj1 (failed_verification_changes_nothing sample_sign sample_env
                  1700000001000 requested' (Some "+15551234")
                  (JStr "000000") true true 1700000001000 H)).
Defined.

(** X7 on [sample_trace]. *)
Lemma challenge_fields_stay_paired_witness :
  reachable sample_NumberToString sample_StringToNumber sample_ObjectToString
            sample_sign sample_verify sample_env
            (run' sample_env emptyStore [] sample_trace).1
            (run' sample_env emptyStore [] sample_trace).2 /\
  challengePaired (run' sample_env emptyStore [] sample_trace).1.
Proof.
  split; [exact sample_trace_reachable|].
  exact (challenge_fields_stay_paired sample_NumberToString
           sample_StringToNumber sample_ObjectToString sample_sign
           sample_verify sample_env _ _ sample_trace_reachable).
Defined.

(** X8 on [sample_trace], run from the store with the challenge
    requested. *)
Lemma identity_is_stable_witness :
  users requested' !! "+15551234"
    = Some {| user_id := 0%N; user_otp := Some "550000";
              user_otpExpires := Some 1700000600000;
              user_createdAt := 1700000000000 |} /\
  exists u',
    users (run' sample_env requested' [] sample_trace).1 !! "+15551234"
      = Some u'
    /\ user_id u' = 0%N /\ user_createdAt u' = 1700000000000.
Proof.
  split; [exact requested_document|].
  exact (identity_is_stable sample_NumberToString sample_StringToNumber
           sample_ObjectToString sample_sign sample_verify sample_env
           sample_trace requested' [] "+15551234" _ requested_document).
Defined.

(** X11 on [sample_store]: of the three entries the requester owns two,
    listed newest first. *)
Lemma history_is_newest_first_witness :
  resp (history sample_store sample_user true)
    = okJson (BHistory [entry_c; entry_a]) /\
  StronglySorted newerFirst [entry_c; entry_a].
Proof.
  assert (H : resp (history sample_store sample_user true)
              = okJson (BHistory [entry_c; entry_a]))
    by (vm_compute; reflexivity).
  split; [exact H|].
  exact (history_is_newest_first sample_store sample_user _ H).
Defined.

(** X13 at an output with the languages and no score. *)
Lemma analyze_without_score_fails_witness :
  getProp (JObj [("ref_lang", JStr "en"); ("tgt_lang", JStr "fr")])
          "similarity_score" = Normal JUndefined /\
  resp (analyze' requested' sample_user (Some no_files) None None
          (Parsed (JObj [("ref_lang", JStr "en"); ("tgt_lang", JStr "fr")]))
          true 1700000125000)
    = errorJson 500 "Similarity analysis failed" /\
  store (analyze' requested' sample_user (Some no_files) None None
           (Parsed (JObj [("ref_lang", JStr "en"); ("tgt_lang", JStr "fr")]))
           true 1700000125000) = requested'.
Proof.
  assert (H : getProp (JObj [("ref_lang", JStr "en"); ("tgt_lang", JStr "fr")])
                      "similarity_score" = Normal JUndefined)
    by reflexivity.
  split; [exact H|].
  destruct (analyze_without_score_fails sample_NumberToString
              sample_StringToNumber sample_ObjectToString requested'
              sample_user no_files None None
              (JObj [("ref_lang", JStr "en"); ("tgt_lang", JStr "fr")])
              true 1700000125000 (or_introl H)) as (Hr & Hs & _).
  split; [exact Hr | exact Hs].
Defined.

(** X14 at an output with the score 65 and nothing else. *)
Lemma missing_languages_are_recorded_witness :
  sample_NumberToString 65 <> "" /\
  status (resp (analyze' requested' sample_user (Some no_files) None None
                  (Parsed (JObj [("similarity_score", JNum 65)]))
                  true 1700000125000)) = 200 /\
  exists h,
    store (analyze' requested' sample_user (Some no_files) None None
             (Parsed (JObj [("similarity_score", JNum 65)]))
             true 1700000125000) = appendHistory requested' h /\
    hist_details h = "undefined ↔ undefined" /\
    hist_score h = sample_NumberToString 65.
Proof.
  assert (H : sample_NumberToString 65 <> "") by (vm_compute; discriminate).
  split; [exact H|].
  exact (missing_languages_are_recorded sample_NumberToString
           sample_StringToNumber sample_ObjectToString requested'
           sample_user no_files None None
           (JObj [("similarity_score", JNum 65)]) 65 1700000125000
           eq_refl eq_refl eq_refl H).
Defined.

(** X15 at an output that is an empty object. *)
Lemma webscan_without_sources_fails_witness :
  getProp (JObj []) "sources" = Normal JUndefined /\
  resp (webscan' requested' sample_user None (Parsed (JObj []))
                 true 1700000125000)
    = errorJson 500 "Web scan failed" /\
  store (webscan' requested' sample_user None (Parsed (JObj []))
                  true 1700000125000) = requested'.
Proof.
  assert (H : getProp (JObj []) "sources" = Normal JUndefined) by reflexivity.
  split; [exact H|].
  destruct (webscan_without_sources_fails sample_NumberToString
              sample_StringToNumber sample_ObjectToString requested'
              sample_user None (JObj []) true 1700000125000 (or_introl H))
    as (Hr & Hs & _).
  split; [exact Hr | exact Hs].
Defined.

(** X16 at the sample token, sent without the prefix. *)
Lemma bearer_prefix_is_optional_witness :
  contains "Bearer " sample_token = false /\
  authMiddleware' sample_env 1700000120000 (Some sample_token)
    = authMiddleware' sample_env 1700000120000
                      (Some ("Bearer " ++ sample_token)).
Proof.
  assert (H : contains "Bearer " sample_token = false)
    by (vm_compute; reflexivity).
  split; [exact H|].
  exact (bearer_prefix_is_optional sample_verify sample_env 1700000120000
           sample_token H).
Defined.

(** X17 at the sample login: its token, presented to [/api/history] two
    minutes later, lists the entries of the identity with [_id] 0. *)
Lemma login_opens_protected_routes_witness :
  JWT_SECRET sample_env = Some "s3cret" /\ "s3cret" <> "" /\
  status (resp login') = 200 /\
  exists token,
    resp login' = okJson (BLogin "Login successful" token) /\
    handle' sample_env 1700000120000 sample_store
            (GetHistory (Some ("Bearer " ++ token)) true)
      = history sample_store sample_user true.
Proof.
  assert (Hne : "s3cret" <> "") by discriminate.
  split; [reflexivity|]. split; [exact Hne|]. split; [exact login_ok|].
  destruct (login_opens_protected_routes sample_NumberToString
              sample_StringToNumber sample_ObjectToString sample_sign
              sample_verify sample_env requested' (Some "+15551234")
              (JStr "550000") 1700000001000 1700000060000 true true "s3cret"
              sample_contract eq_refl Hne login_ok)
    as (ph & u & token & Hph & Hu & Hresp & Hopen).
  injection Hph as <-.
  rewrite requested_document in Hu. injection Hu as <-.
  exists token. split; [exact Hresp|].
  apply (Hopen 1700000120000 sample_store
               (GetHistory (Some ("Bearer " ++ token)) true)).
  - vm_compute. reflexivity.
  - reflexivity.
Defined.


(** X20 at a phone that never requested a challenge. *)
Lemma unknown_phone_is_not_found_witness :
  users requested' !! "+15550000" = None /\
  resp (verify_otp' sample_env 1700000001000 requested' (Some "+15550000")
                    (JStr "550000") true true 1700000001000)
    = errorJson 404 "User not found".
Proof.
  assert (H : users requested' !! "+15550000" = None)
    by (vm_compute; reflexivity).
  split; [exact H|].
  rewrite (unknown_phone_is_not_found sample_sign sample_env 1700000001000
             requested' (Some "+15550000") (JStr "550000") true
             1700000001000
             (or_intror (ex_intro _ "+15550000" (conj eq_refl H)))).
  reflexivity.
Defined.

(** X22 at a scan whose second source scores lower than the first. *)
Lemma only_the_first_source_counts_witness :
  webScanDoc sample_NumberToString sample_StringToNumber
             sample_ObjectToString sample_user None
             (sample_scan [sample_source 90; sample_source 10])
             1700000125000
    = Normal (scan' "90" "2 sources found" "High Risk") /\
  webScanDoc sample_NumberToString sample_StringToNumber
             sample_ObjectToString sample_user None
             (sample_scan [sample_source 90]) 1700000125000
    = Normal (scan' "90" "1 sources found" "High Risk") /\
  hist_verdict (scan' "90" "2 sources found" "High Risk")
    = hist_verdict (scan' "90" "1 sources found" "High Risk").
Proof.
  assert (H1 : webScanDoc sample_NumberToString sample_StringToNumber
                 sample_ObjectToString sample_user None
                 (sample_scan [sample_source 90; sample_source 10])
                 1700000125000
               = Normal (scan' "90" "2 sources found" "High Risk"))
    by (vm_compute; reflexivity).
  assert (H2 : webScanDoc sample_NumberToString sample_StringToNumber
                 sample_ObjectToString sample_user None
                 (sample_scan [sample_source 90]) 1700000125000
               = Normal (scan' "90" "1 sources found" "High Risk"))
    by (vm_compute; reflexivity).
  split; [exact H1|]. split; [exact H2|].
  exact (proj2 (only_the_first_source_counts sample_NumberToString
                  sample_StringToNumber sample_ObjectToString sample_user
                  None (sample_scan [sample_source 90; sample_source 10])
                  (sample_scan [sample_source 90])
                  (sample_source 90) [sample_source 10] []
                  1700000125000 _ _ eq_refl eq_refl H1 H2)).
Defined.

(** X23 at the sample login. *)
Lemma only_a_login_issues_a_token_witness :
  In sample_token
     (issuedBy (handle' sample_env 1700000001000 requested'
                  (VerifyOtp (Some "+15551234") (JStr "550000") true true
                             1700000060000))) /\
  status (resp (handle' sample_env 1700000001000 requested'
                  (VerifyOtp (Some "+15551234") (JStr "550000") true true
                             1700000060000))) = 200.
Proof.
  assert (H : In sample_token
                (issuedBy (handle' sample_env 1700000001000 requested'
                             (VerifyOtp (Some "+15551234") (JStr "550000")
                                        true true 1700000060000))))
    by (vm_compute; left; reflexivity).
  split; [exact H|].
  exact (proj1 (only_a_login_issues_a_token sample_NumberToString
                  sample_StringToNumber sample_ObjectToString sample_sign
                  sample_verify sample_env 1700000001000 requested' _ _ H)).
Defined.
